(** * pydaemon: a double-fork daemoniser with a PID file

    A verification development for [pydaemon.py].  The Python functions
    [start], [stop], [fork], [create_pid_file] and [get_pid] are embedded as
    programs of a small command monad; the operating system (file system,
    signals, process creation, the logging sink and the payload) is the
    interpreter of the commands. *)

From Stdlib Require Import ZArith Lia Bool String Ascii List.
From Stdlib Require Import Decimal DecimalString DecimalZ DecimalPos.
From stdpp Require Import gmap strings list.

Open Scope Z_scope.
Open Scope string_scope.

(** ** Python text: [str.strip], [str(int)] and [int(str)]

    Text is a sequence of characters with code points below 256, one [ascii]
    per character.  On that range [str.isspace] and the decimal digits are the
    ones given below.  Integers are unbounded; the interpreter's optional cap
    on the number of digits of a conversion is not part of the model. *)

Module PyText.

(** [str.isspace] on one character: TAB..CR, FS..US, SPACE, NEL, NBSP. *)
Definition isspace (c : ascii) : bool :=
  let n := nat_of_ascii c in
  ((9 <=? n)%nat && (n <=? 13)%nat) || ((28 <=? n)%nat && (n <=? 32)%nat)
  || (n =? 133)%nat || (n =? 160)%nat.

(** The whitespace that [int] skips around a literal: the ASCII blanks, and
    NEL and NBSP, which it first turns into spaces. *)
Definition int_space (c : ascii) : bool :=
  let n := nat_of_ascii c in
  ((9 <=? n)%nat && (n <=? 13)%nat) || (n =? 32)%nat
  || (n =? 133)%nat || (n =? 160)%nat.

Fixpoint lstrip_by (sp : ascii -> bool) (s : string) : string :=
  match s with
  | String c s' => if sp c then lstrip_by sp s' else s
  | EmptyString => EmptyString
  end.

Fixpoint rstrip_by (sp : ascii -> bool) (s : string) : string :=
  match s with
  | EmptyString => EmptyString
  | String c s' =>
      match rstrip_by sp s' with
      | EmptyString => if sp c then EmptyString else String c EmptyString
      | r => String c r
      end
  end.

Definition strip_by (sp : ascii -> bool) (s : string) : string :=
  rstrip_by sp (lstrip_by sp s).

(** [s.strip()] *)
Definition strip (s : string) : string := strip_by isspace s.

(** [str(z)] for an [int] *)
Definition py_str (z : Z) : string := NilZero.string_of_int (Z.to_int z).

(** Value of a decimal digit character, [None] for any other character. *)
Definition digit_val (c : ascii) : option Z :=
  let n := nat_of_ascii c in
  if ((48 <=? n)%nat && (n <=? 57)%nat)%bool then Some (Z.of_nat n - 48) else None.

(** The digits of an integer literal, most significant first.  A single
    underscore may separate two digits; [prev_us] tells that the previous
    character was an underscore. *)
Fixpoint int_digits (s : string) (prev_us : bool) (acc : Z) : option Z :=
  match s with
  | EmptyString => if prev_us then None else Some acc
  | String c s' =>
      match digit_val c with
      | Some d => int_digits s' false (10 * acc + d)
      | None =>
          if (Ascii.eqb c "_" && negb prev_us)%bool then int_digits s' true acc
          else None
      end
  end.

(** The literal after the sign: not empty, no leading underscore. *)
Definition int_body (s : string) : option Z :=
  match s with
  | EmptyString => None
  | String c _ => if Ascii.eqb c "_" then None else int_digits s false 0
  end.

(** An optionally signed literal with no surrounding whitespace. *)
Definition int_literal (s : string) : option Z :=
  match s with
  | String "+" r => int_body r
  | String "-" r => option_map Z.opp (int_body r)
  | _ => int_body s
  end.

(** [int(s)] in base ten: [None] stands for [ValueError]. *)
Definition py_int (s : string) : option Z := int_literal (strip_by int_space s).

End PyText.

(** ** The operating system as seen by the program

    The files are a map from paths to texts: a path is absent, or a text
    file that can be read, written and removed.  The logging sink and
    [/dev/null] are not among these files.  Signals are answered by the
    surroundings ([env]), which see the whole history of calls.  [run] is
    one process on its own: nothing else touches the files meanwhile;
    [Pool], further down, runs the processes of a fork side by side. *)

Module OS.

(** The exceptions that the program raises, catches or lets through. *)
Inductive exn : Type :=
| FileNotFoundError
| ProcessLookupError
| PermissionError
| ValueError
| TypeError
| OSError
| SystemExit (status : Z).

(** Severities of the logging sink. *)
Inductive level : Type := DEBUG | INFO | WARNING | ERROR | CRITICAL.

(** The calls that leave the process.  A path of the file system is either
    absent or a readable and writable text file. *)
Inductive cmd : Type :=
| ReadText (path : string)                (* open(path, "r") and f.read() *)
| OpenWrite (path : string)               (* open(path, "w"): create or truncate *)
| WriteText (path text : string)          (* f.write(text) and close *)
| Remove (path : string)                  (* os.remove(path) *)
| Kill (pid sig : Z)                      (* os.kill(pid, sig) *)
| Sleep (secs : Z)                        (* time.sleep(secs) *)
| Fork                                    (* os.fork() *)
| Chdir (path : string)                   (* os.chdir(path) *)
| Setsid                                  (* os.setsid() *)
| Umask (mask : Z)                        (* os.umask(mask) *)
| SetStream (stream path : string)        (* sys.<stream> = open(path, "w") *)
| Logging (lvl : level) (msg : string)    (* logging.<lvl>(msg) *)
| App.                                    (* app( *args, **kwargs) *)

(** What a call gives back. *)
Inductive val : Type := VNone | VStr (s : string) | VInt (z : Z).

(** Result of a call, and of a whole run. *)
Inductive outcome (A : Type) : Type :=
| Returned (a : A)
| Raised (e : exn).
Arguments Returned {A} a.
Arguments Raised {A} e.

(** The state a process works on: the files, and the calls made so far,
    oldest first. *)
Record world : Type := World {
  fs : gmap string string;
  trace : list cmd
}.

(** What the program does not decide: how the kernel answers a signal and a
    fork after a given history, and what the payload does to the files. *)
Record env : Type := Env {
  kill_reply : list cmd -> Z -> Z -> option exn;
  fork_reply : list cmd -> Z;
  app_effect : gmap string string -> option exn * gmap string string
}.

Definition reply_of (r : option exn) : outcome val :=
  match r with Some e => Raised e | None => Returned VNone end.

(** One call, in a process that runs alone. *)
Definition handle (E : env) (c : cmd) (w : world) : outcome val * world :=
  let seen := (trace w ++ [c])%list in
  match c with
  | ReadText p =>
      match fs w !! p with
      | Some t => (Returned (VStr t), World (fs w) seen)
      | None => (Raised FileNotFoundError, World (fs w) seen)
      end
  | OpenWrite p => (Returned VNone, World (<[p := EmptyString]> (fs w)) seen)
  | WriteText p t => (Returned VNone, World (<[p := t]> (fs w)) seen)
  | Remove p =>
      match fs w !! p with
      | Some _ => (Returned VNone, World (delete p (fs w)) seen)
      | None => (Raised FileNotFoundError, World (fs w) seen)
      end
  | Kill pid sig => (reply_of (kill_reply E (trace w) pid sig), World (fs w) seen)
  | Fork => (Returned (VInt (fork_reply E (trace w))), World (fs w) seen)
  | App =>
      let '(r, m) := app_effect E (fs w) in (reply_of r, World m seen)
  | Sleep _ | Chdir _ | Setsid | Umask _ | SetStream _ _ | Logging _ _ =>
      (Returned VNone, World (fs w) seen)
  end.

(** Programs: a return, a raise, or a call followed by the rest. *)
Inductive prog (A : Type) : Type :=
| Ret (a : A)
| Raise (e : exn)
| Do (c : cmd) (k : outcome val -> prog A).
Arguments Ret {A} a.
Arguments Raise {A} e.
Arguments Do {A} c k.

Fixpoint bind {A B : Type} (m : prog A) (f : A -> prog B) : prog B :=
  match m with
  | Ret a => f a
  | Raise e => Raise e
  | Do c k => Do c (fun r => bind (k r) f)
  end.

(** [try: body / except ...: handler]; [h e = None] when no clause matches
    [e].  A raise inside the chosen handler is not caught again. *)
Fixpoint try_except {A : Type} (body : prog A) (h : exn -> option (prog A)) : prog A :=
  match body with
  | Ret a => Ret a
  | Raise e => match h e with Some q => q | None => Raise e end
  | Do c k => Do c (fun r => try_except (k r) h)
  end.

Definition call (c : cmd) : prog val :=
  Do c (fun r => match r with Returned v => Ret v | Raised e => Raise e end).

(** A run of one process to its end. *)
Fixpoint run {A : Type} (E : env) (p : prog A) (w : world) : outcome A * world :=
  match p with
  | Ret a => (Returned a, w)
  | Raise e => (Raised e, w)
  | Do c k => let '(r, w') := handle E c w in run E (k r) w'
  end.

End OS.

Export OS.

Declare Scope prog_scope.
Delimit Scope prog_scope with prog.
Bind Scope prog_scope with prog.
Notation "x <- m ;; k" := (bind m (fun x => k))
  (at level 100, m at next level, k at level 200, right associativity) : prog_scope.
Notation "m ;; k" := (bind m (fun _ => k))
  (at level 100, k at level 200, right associativity) : prog_scope.
Open Scope prog_scope.

(** ** The library calls of the source *)

Definition read_text (path : string) : prog string :=
  v <- call (ReadText path) ;;
  match v with VStr s => Ret s | _ => Raise TypeError end.

Definition open_write (path : string) : prog unit := call (OpenWrite path) ;; Ret tt.
Definition write_text (path text : string) : prog unit := call (WriteText path text) ;; Ret tt.
Definition os_remove (path : string) : prog unit := call (Remove path) ;; Ret tt.
Definition os_kill (pid sig : Z) : prog unit := call (Kill pid sig) ;; Ret tt.
Definition time_sleep (secs : Z) : prog unit := call (Sleep secs) ;; Ret tt.
Definition os_chdir (path : string) : prog unit := call (Chdir path) ;; Ret tt.
Definition os_setsid : prog unit := call Setsid ;; Ret tt.
Definition os_umask (mask : Z) : prog unit := call (Umask mask) ;; Ret tt.
Definition set_stream (stream path : string) : prog unit := call (SetStream stream path) ;; Ret tt.
Definition logging (lvl : level) (msg : string) : prog unit := call (Logging lvl msg) ;; Ret tt.
Definition call_app : prog unit := call App ;; Ret tt.

Definition os_fork : prog Z :=
  v <- call Fork ;;
  match v with VInt z => Ret z | _ => Raise TypeError end.

(** [sys.exit()]: exit status 0 *)
Definition sys_exit {A : Type} : prog A := Raise (SystemExit 0).

(** [int(s)] *)
Definition int_of_str (s : string) : prog Z :=
  match PyText.py_int s with
  | Some z => Ret z
  | None => Raise ValueError
  end.

(** [for _ in range(n): body] *)
Fixpoint for_range (n : nat) (body : prog unit) : prog unit :=
  match n with
  | O => Ret tt
  | S n' => body ;; for_range n' body
  end.

(** [signal.SIGKILL] *)
Definition SIGKILL : Z := 9.

Definition newline : string := String (ascii_of_nat 10) EmptyString.

(** ** The functions of [pydaemon.py]

    A [return] inside a [try] or an [except] block is the [Some] of an
    option; [None] falls through to the statement after the block. *)

Definition create_pid_file (pid_file : string) (pid : Z) : prog unit :=
  open_write pid_file ;;
  logging DEBUG ("Writing PID " ++ PyText.py_str pid ++ " to file " ++ pid_file) ;;
  write_text pid_file (PyText.py_str pid).

Definition get_pid (pid_file : string) : prog Z :=
  opened <- try_except
    (pid <- read_text pid_file ;;
     logging DEBUG ("Read PID file " ++ pid_file ++ ". Contents:" ++ newline ++ pid) ;;
     Ret (Some pid))
    (fun e =>
       match e with
       | FileNotFoundError =>
           Some (logging ERROR "The process is not running or the PID file has been deleted" ;;
                 Ret None)
       | _ => None
       end) ;;
  match opened with
  | None => Ret (-1)
  | Some pid =>
      let pid := PyText.strip pid in
      parsed <- try_except
        (pid <- int_of_str pid ;; Ret (Some pid))
        (fun e =>
           match e with
           | ValueError => Some (logging ERROR "PID file is invalid" ;; Ret None)
           | _ => None
           end) ;;
      match parsed with
      | None => Ret (-1)
      | Some pid => Ret pid
      end
  end.

Definition fork (pid_file : string) : prog Z :=
  pid <- os_fork ;;
  (if (pid >? 0)%Z then sys_exit else Ret tt) ;;
  os_chdir "/" ;;
  os_setsid ;;
  os_umask 0 ;;
  pid <- os_fork ;;
  (if (pid >? 0)%Z then create_pid_file pid_file pid ;; sys_exit else Ret tt) ;;
  logging DEBUG "Redirecting stdout and stderr to /dev/null" ;;
  set_stream "stdout" "/dev/null" ;;
  set_stream "stderr" "/dev/null" ;;
  Ret pid.

Definition start (pid_file : string) : prog Z :=
  logging INFO "Starting daemon" ;;
  logging DEBUG ("PID file location: " ++ pid_file) ;;
  found <- try_except
    (pid <- read_text pid_file ;;
     logging INFO ("Process already exists with PID: " ++ pid ++ "... Exiting") ;;
     Ret (Some 0))
    (fun e => match e with FileNotFoundError => Some (Ret None) | _ => None end) ;;
  match found with
  | Some code => Ret code
  | None =>
      logging DEBUG "Entering fork function..." ;;
      fork pid_file ;;
      logging DEBUG "Running app function..." ;;
      call_app ;;
      logging INFO "Function completed. Deleting pidfile" ;;
      os_remove pid_file ;;
      Ret 0
  end.

Definition stop (pid_file : string) : prog Z :=
  pid <- get_pid pid_file ;;
  if (pid =? -1)%Z then Ret 1 else
  probed <- try_except
    (os_kill pid 0 ;; Ret None)
    (fun e =>
       match e with
       | ProcessLookupError =>
           Some (logging WARNING
                   ("Process " ++ PyText.py_str pid ++ " does not exist. Removing old PID file.") ;;
                 os_remove pid_file ;;
                 Ret (Some 0))
       | _ => None
       end) ;;
  match probed with
  | Some code => Ret code
  | None =>
      killed <- try_except
        (for_range 10 (os_kill pid SIGKILL ;; time_sleep 2) ;;
         logging ERROR ("Unable to kill process " ++ PyText.py_str pid) ;;
         Ret (Some 1))
        (fun e =>
           match e with
           | ProcessLookupError =>
               Some (logging INFO
                       ("Process " ++ PyText.py_str pid ++ " is now terminated. Removing PID file.") ;;
                     os_remove pid_file ;;
                     Ret None)
           | _ => None
           end) ;;
      match killed with
      | Some code => Ret code
      | None => Ret 0
      end
  end.

(** ** Reading a history *)

(** The signals sent, as (pid, signal). *)
Definition signals (t : list cmd) : list (Z * Z) :=
  omap (fun c => match c with Kill pid sig => Some (pid, sig) | _ => None end) t.

(** The messages handed to the logging sink. *)
Definition records (t : list cmd) : list (level * string) :=
  omap (fun c => match c with Logging lvl msg => Some (lvl, msg) | _ => None end) t.

(** The seconds spent in [time.sleep]. *)
Definition slept (t : list cmd) : Z :=
  foldr Z.add 0 (omap (fun c => match c with Sleep n => Some n | _ => None end) t).

(** Whether a call changes the files, creates a process or runs the payload. *)
Definition is_mutation (c : cmd) : bool :=
  match c with OpenWrite _ | WriteText _ _ | Remove _ => true | _ => false end.
Definition is_app (c : cmd) : bool :=
  match c with App => true | _ => false end.
Definition is_fork (c : cmd) : bool :=
  match c with Fork => true | _ => false end.

(** ** Several processes

    [os.fork()] makes a second process that runs the same continuation: the
    parent is answered the child's pid, the child is answered 0.  The
    processes share the files; any of them may make the next call. *)

Module Pool.

Record system (A : Type) : Type := System {
  files : gmap string string;
  history : list (Z * cmd);          (* who called what, oldest first *)
  procs : gmap Z (prog A);           (* what is left to run in each process *)
  free_pids : list Z                 (* the pids the kernel hands out next *)
}.
Arguments System {A} files history procs free_pids.
Arguments files {A} s.
Arguments history {A} s.
Arguments procs {A} s.
Arguments free_pids {A} s.

(** Process [p] makes its next call.  A finished or unknown process does
    nothing.  With no pid left the fork fails in the parent. *)
Definition step {A : Type} (E : env) (p : Z) (s : system A) : system A :=
  match procs s !! p with
  | Some (Do c k) =>
      let h := (history s ++ [(p, c)])%list in
      match c with
      | Fork =>
          match free_pids s with
          | child :: rest =>
              System (files s) h
                (<[child := k (Returned (VInt 0))]>
                   (<[p := k (Returned (VInt child))]> (procs s)))
                rest
          | [] => System (files s) h (<[p := k (Raised OSError)]> (procs s)) []
          end
      | _ =>
          let '(r, w) := handle E c (World (files s) (map snd (history s))) in
          System (fs w) h (<[p := k r]> (procs s)) (free_pids s)
      end
  | _ => s
  end.

(** The processes take turns as the schedule says. *)
Fixpoint exec {A : Type} (E : env) (sched : list Z) (s : system A) : system A :=
  match sched with
  | [] => s
  | p :: rest => exec E rest (step E p s)
  end.

(** One process [p0] about to run [main]. *)
Definition boot {A : Type} (p0 : Z) (main : prog A) (m : gmap string string)
  (pids : list Z) : system A :=
  System m [] {[ p0 := main ]} pids.

Definition finished {A : Type} (P : prog A) : bool :=
  match P with Do _ _ => false | _ => true end.

End Pool.

(** ** The detaching protocol

    The roles a process goes through while [fork] runs, and what each role
    may do.  [follows st P] says that a process in role [st] with [P] left to
    run keeps to the protocol whatever the calls answer. *)

Module Detach.

Import Pool.

Inductive stage : Type :=
| Caller          (* the original process, before the first os.fork() *)
| CallerGone      (* the original process, after it *)
| Child           (* the first child, before the second os.fork() *)
| ChildForked     (* the first child, after it, PID file not yet written *)
| ChildWrote      (* the first child, PID file written *)
| Grandchild.     (* the process that survives *)

Section Protocol.

Context {A : Type}.
(** The files at the start, the PID file, and the pids of the original
    process, of the first child and of the grandchild. *)
Variables (m : gmap string string) (path : string) (p0 c g : Z).
(** How a role may end. *)
Variable final : stage -> prog A -> Prop.

(** The answers a call can get from [handle].  Before the first fork the
    files are still the ones of the start. *)
Definition answers (st : stage) (cm : cmd) (r : outcome val) : Prop :=
  match cm with
  | ReadText f =>
      match st with
      | Caller =>
          r = match m !! f with
              | Some t => Returned (VStr t)
              | None => Raised FileNotFoundError
              end
      | _ => r = Raised FileNotFoundError \/ exists t, r = Returned (VStr t)
      end
  | Remove _ => r = Raised FileNotFoundError \/ r = Returned VNone
  | Kill _ _ | App => r = Returned VNone \/ exists e, r = Raised e
  | Fork => exists z, r = Returned (VInt z)
  | _ => r = Returned VNone
  end.

Definition allowed (st : stage) (cm : cmd) : Prop :=
  match cm with
  | OpenWrite f => st = ChildForked /\ f = path
  | WriteText f t => st = ChildForked /\ f = path /\ t = PyText.py_str g
  | App | Remove _ => st = Grandchild
  | _ => True
  end.

Definition next (st : stage) (cm : cmd) : stage :=
  match cm with WriteText _ _ => ChildWrote | _ => st end.

Fixpoint follows (st : stage) (P : prog A) : Prop :=
  match P with
  | Do cm k =>
      allowed st cm /\
      match cm with
      | Fork =>
          match st with
          | Caller =>
              follows CallerGone (k (Returned (VInt c))) /\
              follows Child (k (Returned (VInt 0)))
          | Child =>
              follows ChildForked (k (Returned (VInt g))) /\
              follows Grandchild (k (Returned (VInt 0)))
          | _ => False
          end
      | _ => forall r, answers st cm r -> follows (next st cm) (k r)
      end
  | _ => final st P
  end.

(** The call [ev.2] made by process [ev.1] is one its role allows. *)
Definition event_ok (ev : Z * cmd) : Prop :=
  match ev.2 with
  | OpenWrite f => ev.1 = c /\ f = path
  | WriteText f t => ev.1 = c /\ f = path /\ t = PyText.py_str g
  | App | Remove _ => ev.1 = g
  | _ => True
  end.

(** The role of process [p] after [n] forks. *)
Definition stage_of (n : nat) (wrote : bool) (p : Z) : option stage :=
  if decide (p = p0) then Some (match n with O => Caller | _ => CallerGone end)
  else if decide (p = c) then
    match n with
    | O => None
    | S O => Some Child
    | _ => Some (if wrote then ChildWrote else ChildForked)
    end
  else if decide (p = g) then
    match n with S (S _) => Some Grandchild | _ => None end
  else None.

(** What holds of every state the system reaches. *)
Definition inv (rest : list Z) (s : system A) : Prop :=
  exists (n : nat) (wrote : bool),
    (n <= 2)%nat /\
    free_pids s = drop n (c :: g :: rest) /\
    (n = O -> files s = m) /\
    (forall p P, procs s !! p = Some P ->
       exists st, stage_of n wrote p = Some st /\ follows st P) /\
    (wrote = true -> (c, WriteText path (PyText.py_str g)) ∈ history s) /\
    Forall event_ok (history s).

End Protocol.

(** How the roles of [start] end: the original process without a fork only
    when the PID file is there, the first child only after writing. *)
Definition final_start (m : gmap string string) (path : string)
  (st : stage) (P : prog Z) : Prop :=
  match st with
  | Caller => is_Some (m !! path) /\ P = Ret 0
  | CallerGone | ChildWrote => P = Raise (SystemExit 0)
  | Child | ChildForked => False
  | Grandchild => True
  end.

(** How the roles of [fork] end. *)
Definition final_fork (st : stage) (P : prog Z) : Prop :=
  match st with
  | CallerGone | ChildWrote => P = Raise (SystemExit 0)
  | Grandchild => P = Ret 0
  | _ => False
  end.

End Detach.

(** ** Vocabulary of the statements *)

(** Only characters of the class [sp], and none of them. *)
Fixpoint all_sp (sp : ascii -> bool) (s : string) : bool :=
  match s with
  | EmptyString => true
  | String c s' => sp c && all_sp sp s'
  end.

Fixpoint none_sp (sp : ascii -> bool) (s : string) : bool :=
  match s with
  | EmptyString => true
  | String c s' => negb (sp c) && none_sp sp s'
  end.

(** Only whitespace, and no whitespace at all, as [str.isspace] sees it. *)
Definition blank (s : string) : bool := all_sp PyText.isspace s.
Definition no_space (s : string) : bool := none_sp PyText.isspace s.

(** The number that a run of decimal digits adds to [acc]. *)
Fixpoint uint_val (d : uint) (acc : Z) : Z :=
  match d with
  | Nil => acc
  | D0 l => uint_val l (10 * acc + 0)
  | D1 l => uint_val l (10 * acc + 1)
  | D2 l => uint_val l (10 * acc + 2)
  | D3 l => uint_val l (10 * acc + 3)
  | D4 l => uint_val l (10 * acc + 4)
  | D5 l => uint_val l (10 * acc + 5)
  | D6 l => uint_val l (10 * acc + 6)
  | D7 l => uint_val l (10 * acc + 7)
  | D8 l => uint_val l (10 * acc + 8)
  | D9 l => uint_val l (10 * acc + 9)
  end.

(** The messages of [get_pid]. *)
Definition not_found_msg : string :=
  "The process is not running or the PID file has been deleted".
Definition invalid_msg : string := "PID file is invalid".
Definition read_msg (path content : string) : string :=
  "Read PID file " ++ path ++ ". Contents:" ++ newline ++ content.

(** The calls of [get_pid] on a file that is there. *)
Definition get_pid_calls (path content : string) : list cmd :=
  [ReadText path; Logging DEBUG (read_msg path content)].

(** The calls of [create_pid_file]. *)
Definition create_calls (path : string) (pid : Z) : list cmd :=
  [OpenWrite path;
   Logging DEBUG ("Writing PID " ++ PyText.py_str pid ++ " to file " ++ path);
   WriteText path (PyText.py_str pid)].

(** The calls of [fork] up to the second [os.fork()], and after it in the
    grandchild. *)
Definition detach_calls : list cmd := [Fork; Chdir "/"; Setsid; Umask 0].

Definition grandchild_calls : list cmd :=
  [Fork;
   Logging DEBUG "Redirecting stdout and stderr to /dev/null";
   SetStream "stdout" "/dev/null";
   SetStream "stderr" "/dev/null"].

(** The calls of [start] when the PID file is there. *)
Definition already_running_calls (path content : string) : list cmd :=
  [Logging INFO "Starting daemon";
   Logging DEBUG ("PID file location: " ++ path);
   ReadText path;
   Logging INFO ("Process already exists with PID: " ++ content ++ "... Exiting")].

(** [n] rounds of the termination loop of [stop]. *)
Fixpoint kill_calls (pid : Z) (n : nat) : list cmd :=
  match n with
  | O => []
  | S n' => Kill pid SIGKILL :: Sleep 2 :: kill_calls pid n'
  end.

(** The three ways [stop] ends after a valid read. *)
Definition stale_calls (path : string) (pid : Z) : list cmd :=
  [Kill pid 0;
   Logging WARNING
     ("Process " ++ PyText.py_str pid ++ " does not exist. Removing old PID file.");
   Remove path].

Definition terminated_calls (path : string) (pid : Z) : list cmd :=
  [Kill pid SIGKILL;
   Logging INFO
     ("Process " ++ PyText.py_str pid ++ " is now terminated. Removing PID file.");
   Remove path].

Definition gave_up_calls (pid : Z) : list cmd :=
  [Logging ERROR ("Unable to kill process " ++ PyText.py_str pid)].

(** A call that changes no file, runs no payload and creates no process. *)
Definition quiet (c : cmd) : bool :=
  negb (is_mutation c || is_app c || is_fork c).

Definition is_write (cm : cmd) : bool :=
  match cm with WriteText _ _ => true | _ => false end.

(** The two entry points, and a series of calls to them on one PID file. *)
Inductive action : Type := Start | Stop.

Definition lifecycle (a : action) (pid_file : string) : prog Z :=
  match a with Start => start pid_file | Stop => stop pid_file end.

Fixpoint run_all (E : env) (acts : list action) (pid_file : string) (w : world)
  : list (outcome Z) * world :=
  match acts with
  | [] => ([], w)
  | a :: rest =>
      let '(r, w1) := run E (lifecycle a pid_file) w in
      let '(rs, w2) := run_all E rest pid_file w1 in
      (r :: rs, w2)
  end.

(** What each entry point answers while the PID file cannot be used. *)
Definition blocked_code (a : action) : outcome Z :=
  match a with Start => Returned 0 | Stop => Returned 1 end.

(** ** Concrete surroundings *)

(** The n-th [os.kill] gets the n-th answer of the script, later ones are
    delivered; the process is the child at every fork; the payload leaves
    the files alone. *)
Definition scripted (script : list (option exn)) : env :=
  Env (fun h _ _ => nth (length (signals h)) script None)
      (fun _ => 0)
      (fun m => (None, m)).

Definition demo_path : string := "/tmp/pydaemon.pid".

Definition demo_world (content : string) : world :=
  World {[ demo_path := content ]} [].

(** Process 100 calls; 101 is the first child and 102 the grandchild.
    [in_turn]: each runs when the one before is done, the grandchild up to
    the payload.  [grandchild_first]: the grandchild runs as soon as it
    exists, the first child has not written yet. *)
Definition in_turn : list Z :=
  (replicate 5 100 ++ replicate 7 101 ++ replicate 5 102)%list.

Definition grandchild_first : list Z :=
  (replicate 5 100 ++ replicate 4 101 ++ replicate 5 102)%list.

Definition fork_in_turn : list Z :=
  (100 :: replicate 7 101 ++ replicate 3 102)%list.

(** ** More vocabulary: [start] past the PID-file check *)

(** The calls of [start] before [fork], around the payload, and after it. *)
Definition start_calls (path : string) : list cmd :=
  [Logging INFO "Starting daemon";
   Logging DEBUG ("PID file location: " ++ path);
   ReadText path;
   Logging DEBUG "Entering fork function..."].

Definition payload_calls : list cmd :=
  [Logging DEBUG "Running app function..."; App].

Definition cleanup_calls (path : string) : list cmd :=
  [Logging INFO "Function completed. Deleting pidfile"; Remove path].

(** How [stop] can end once it has read a pid other than -1. *)
Inductive stop_case : Type :=
| Stale                              (* the probe found no such process *)
| ProbeFailed (e : exn)              (* the probe raised something else *)
| GaveUp                             (* ten rounds delivered *)
| Terminated (i : nat)               (* round [i] found no such process *)
| LoopFailed (i : nat) (e : exn).    (* round [i] raised something else *)

(** When a case can arise: [t0] is the history at the probe. *)
Definition stop_case_ok (E : env) (t0 : list cmd) (pid : Z) (c : stop_case) : Prop :=
  match c with
  | Stale | GaveUp => True
  | ProbeFailed e => e <> ProcessLookupError /\ kill_reply E t0 pid 0 = Some e
  | Terminated i => (i < 10)%nat
  | LoopFailed i e =>
      (i < 10)%nat /\ e <> ProcessLookupError /\
      kill_reply E (t0 ++ Kill pid 0 :: kill_calls pid i)%list pid SIGKILL = Some e
  end.

Definition stop_case_calls (path : string) (pid : Z) (c : stop_case) : list cmd :=
  match c with
  | Stale => stale_calls path pid
  | ProbeFailed _ => [Kill pid 0]
  | GaveUp => Kill pid 0 :: kill_calls pid 10 ++ gave_up_calls pid
  | Terminated i => Kill pid 0 :: kill_calls pid i ++ terminated_calls path pid
  | LoopFailed i _ => Kill pid 0 :: kill_calls pid i ++ [Kill pid SIGKILL]
  end%list.

Definition stop_case_result (c : stop_case) : outcome Z :=
  match c with
  | Stale | Terminated _ => Returned 0
  | GaveUp => Returned 1
  | ProbeFailed e | LoopFailed _ e => Raised e
  end.

Definition stop_case_files (path : string) (m : gmap string string) (c : stop_case)
  : gmap string string :=
  match c with
  | Stale | Terminated _ => delete path m
  | _ => m
  end.

(** Surroundings in which the process is the child at every fork: the
    payload is cut short by [sys.exit()], as under the SIGTERM handler; the
    payload finds [text] at [path] when it returns. *)
Definition interrupted : env :=
  Env (fun _ _ _ => None) (fun _ => 0) (fun m => (Some (SystemExit 0), m)).

Definition writing (path text : string) : env :=
  Env (fun _ _ _ => None) (fun _ => 0) (fun m => (None, <[path := text]> m)).

(** Surroundings in which every fork answers the pid [child]. *)
Definition parent_of (child : Z) : env :=
  Env (fun _ _ _ => None) (fun _ => child) (fun m => (None, m)).

(** Surroundings in which the payload raises [e]. *)
Definition failing (e : exn) : env :=
  Env (fun _ _ _ => None) (fun _ => 0) (fun m => (Some e, m)).

(** ** More vocabulary: the payload across the processes *)

(** How often the payload has been invoked. *)
Definition payload_runs (h : list (Z * cmd)) : nat :=
  length (omap (fun ev : Z * cmd => if is_app ev.2 then Some ev.1 else None) h).

(** [P] invokes the payload at most [n] more times, whatever the calls answer. *)
Fixpoint apps_le {A : Type} (n : nat) (P : prog A) : Prop :=
  match P with
  | Do cm k =>
      match cm with
      | App => match n with O => False | S n' => forall r, apps_le n' (k r) end
      | _ => forall r, apps_le n (k r)
      end
  | _ => True
  end.

(** The payload has run at most once, and the processes that may still
    reach it (the original one and the first child before their forks, the
    grandchild) have at most what is left of that one invocation. *)
Definition once {A : Type} (p0 c g : Z) (rest : list Z) (s : Pool.system A) : Prop :=
  (payload_runs (Pool.history s) <= 1)%nat /\
  forall p P, Pool.procs s !! p = Some P ->
    (p = p0 /\ length (Pool.free_pids s) = S (S (length rest))) \/
    (p = c /\ length (Pool.free_pids s) = S (length rest)) \/
    p = g ->
    apps_le (1 - payload_runs (Pool.history s)) P.

(** Two ways the three processes of [start] can take turns: the first child
    runs to its end before the grandchild starts; the grandchild runs to its
    end before the first child writes. *)
Definition child_first (p0 c g : Z) : list Z :=
  (replicate 5 p0 ++ replicate 7 c ++ replicate 7 g)%list.

Definition daemon_first (p0 c g : Z) : list Z :=
  (replicate 5 p0 ++ replicate 4 c ++ replicate 7 g ++ replicate 3 c)%list.

(** ** The handlers, [main] and the script *)

(** [signal.SIGTERM] *)
Definition SIGTERM : Z := 15.

(** [sigterm_handler(signal, frame)] *)
Definition sigterm_handler {A : Type} : prog A :=
  logging INFO "SIGTERM received. Stopping process and exiting" ;;
  sys_exit.

(** [log_except_hook( *exc_info)]; [text] is the formatted traceback. *)
Definition log_except_hook {A : Type} (text : string) : prog A :=
  logging CRITICAL ("Unhandled Exception:" ++ newline ++ text) ;;
  Raise (SystemExit 1).

(** The handlers of the root logger. *)
Inductive log_handler : Type :=
| FileHandler (path : string)
| StreamHandler
| OtherHandler (name : string).

(** The calls of [main] and of the script that are neither file, signal nor
    process calls. *)
Inductive main_call : Type :=
| SetExcepthook                                        (* sys.excepthook = log_except_hook *)
| SignalSignal (sig : Z) (handler : prog unit)         (* signal.signal(sig, handler) *)
| RemoveHandler (h : log_handler)                      (* logging.root.removeHandler(h) *)
| BasicConfig (format : string) (lvl : Z) (handlers : list log_handler)
| Print (msg : string).

(** How [main] ends: as a [prog] does, or with [code] never assigned. *)
Inductive ending : Type :=
| Ended (r : outcome Z)
| UnboundLocalError.

(** What [main] does before it looks at the action.  The first
    [logging.debug] configures a stream handler when the root logger had
    none; the loop then removes every handler present. *)
Definition main_setup (current_dir : string) (old_handlers : list log_handler)
  (logLevel : Z) : list main_call :=
  let present :=
    match old_handlers with [] => [StreamHandler] | _ => old_handlers end in
  (SignalSignal SIGTERM sigterm_handler
   :: map RemoveHandler present
   ++ [BasicConfig "%(asctime)s - %(message)s" logLevel
         [FileHandler (current_dir ++ "/pydaemon.log"); StreamHandler]])%list.

(** [main(pid_file, action=..., logLevel=...)].  [as_script] is
    [__name__ == "__main__"]; [locals_repr] is the text of [locals()]. *)
Definition main (E : env) (as_script : bool) (locals_repr current_dir : string)
  (old_handlers : list log_handler) (pid_file action : string) (logLevel : Z)
  (w : world) : ending * world * list main_call :=
  let w0 := (run E (logging DEBUG ("main arguments: " ++ locals_repr)) w).2 in
  let setup := main_setup current_dir old_handlers logLevel in
  let finish (r : outcome Z) : ending :=
    match r with
    | Returned code =>
        if as_script then Ended (Raised (SystemExit code)) else Ended (Returned code)
    | Raised e => Ended (Raised e)
    end in
  if String.eqb action "start" then
    let '(r, w1) := run E (start pid_file) w0 in (finish r, w1, setup)
  else if String.eqb action "stop" then
    let '(r, w1) := run E (stop pid_file) w0 in (finish r, w1, setup)
  else
    (UnboundLocalError, w0, (setup ++ [Print "Action can only be start or stop"])%list).

(** The level names the parser accepts, and [logLevels]. *)
Definition choices : list string :=
  ["off"; "debug"; "info"; "warning"; "error"; "critical"].

Definition logLevels : gmap string Z :=
  {[ "off" := 0; "debug" := 10; "info" := 20;
     "warning" := 30; "error" := 40; "critical" := 50 ]}.

(** The number of a severity, and the records that pass a threshold. *)
Definition levelno (lvl : level) : Z :=
  match lvl with
  | DEBUG => 10 | INFO => 20 | WARNING => 30 | ERROR => 40 | CRITICAL => 50
  end.

Definition shown (threshold : Z) (t : list cmd) : list (level * string) :=
  List.filter (fun rec : level * string => threshold <=? levelno rec.1)%Z (records t).

(** The script after its arguments are parsed.  The exit status is the one
    of the [SystemExit] that comes out of [main]; any other exception goes
    through [log_except_hook] and gives status 1.  A level name without an
    entry fails before the hook is set. *)
Definition script (E : env) (traceback locals_repr current_dir : string)
  (old_handlers : list log_handler) (pid_file action level_name : string)
  (w : world) : Z * world * list main_call :=
  match logLevels !! level_name with
  | None => (1, w, [])
  | Some logLevel =>
      let '(e, w1, calls) :=
        main E true locals_repr current_dir old_handlers pid_file action logLevel w in
      match e with
      | Ended (Raised (SystemExit status)) => (status, w1, SetExcepthook :: calls)
      | Ended (Returned _) => (0, w1, SetExcepthook :: calls)
      | Ended (Raised _) | UnboundLocalError =>
          (1, (run E (log_except_hook (A := unit) traceback) w1).2, SetExcepthook :: calls)
      end
  end.

Definition crash_msg (traceback : string) : string :=
  "Unhandled Exception:" ++ newline ++ traceback.

Definition main_debug (locals_repr : string) : list cmd :=
  [Logging DEBUG ("main arguments: " ++ locals_repr)].


(** * Facts *)

(** ** Stripping and decimal text *)

Section Stripping.

Import PyText.

Variable sp : ascii -> bool.

Lemma lstrip_by_all_sp ws : all_sp sp ws = true -> lstrip_by sp ws = EmptyString.
Proof.
  induction ws as [|ch ws IH]; simpl; [reflexivity|].
  intros [Hc Hws]%andb_true_iff. rewrite Hc. auto.
Qed.

Lemma lstrip_by_app ws s : all_sp sp ws = true -> lstrip_by sp (ws ++ s) = lstrip_by sp s.
Proof.
  induction ws as [|ch ws IH]; simpl; [reflexivity|].
  intros [Hc Hws]%andb_true_iff. rewrite Hc. auto.
Qed.

Lemma rstrip_by_all_sp ws : all_sp sp ws = true -> rstrip_by sp ws = EmptyString.
Proof.
  induction ws as [|ch ws IH]; simpl; [reflexivity|].
  intros [Hc Hws]%andb_true_iff. rewrite (IH Hws), Hc. reflexivity.
Qed.

Lemma rstrip_by_app s ws : all_sp sp ws = true -> rstrip_by sp (s ++ ws) = rstrip_by sp s.
Proof.
  intros Hws. induction s as [|ch s IH]; simpl.
  - apply rstrip_by_all_sp, Hws.
  - rewrite IH. reflexivity.
Qed.

Lemma rstrip_by_none_sp s : none_sp sp s = true -> rstrip_by sp s = s.
Proof.
  induction s as [|ch s IH]; simpl; [reflexivity|].
  intros [Hc Hs]%andb_true_iff. rewrite (IH Hs).
  apply negb_true_iff in Hc. rewrite Hc. destruct s; reflexivity.
Qed.

Lemma strip_by_padded ws1 s ws2 :
  all_sp sp ws1 = true -> all_sp sp ws2 = true -> none_sp sp s = true ->
  strip_by sp (ws1 ++ s ++ ws2) = s.
Proof.
  intros H1 H2 Hs. unfold strip_by. rewrite (lstrip_by_app _ _ H1).
  destruct s as [|ch s].
  - change (EmptyString ++ ws2) with ws2. rewrite (lstrip_by_all_sp _ H2). reflexivity.
  - pose proof Hs as Hs'. simpl in Hs'. apply andb_true_iff in Hs' as [Hc _].
    apply negb_true_iff in Hc. simpl. rewrite Hc.
    change (String ch (s ++ ws2)) with (String ch s ++ ws2).
    rewrite (rstrip_by_app _ _ H2). apply rstrip_by_none_sp, Hs.
Qed.

Lemma strip_by_none_sp s : none_sp sp s = true -> strip_by sp s = s.
Proof.
  intros Hs. unfold strip_by.
  replace (lstrip_by sp s) with s; [apply rstrip_by_none_sp, Hs|].
  destruct s as [|ch s]; [reflexivity|]. simpl in *.
  apply andb_true_iff in Hs as [Hc _]. apply negb_true_iff in Hc.
  rewrite Hc. reflexivity.
Qed.

End Stripping.

Section DecimalText.

Import PyText.

Lemma int_space_isspace ch : int_space ch = true -> isspace ch = true.
Proof.
  unfold int_space, isspace. generalize (nat_of_ascii ch). intros n.
  rewrite !orb_true_iff, !andb_true_iff, !Nat.leb_le, !Nat.eqb_eq. lia.
Qed.

Lemma none_sp_int_space s : no_space s = true -> none_sp int_space s = true.
Proof.
  unfold no_space. induction s as [|ch s IH]; simpl; [reflexivity|].
  intros [Hc Hs]%andb_true_iff. rewrite (IH Hs), andb_true_r.
  apply negb_true_iff in Hc. apply negb_true_iff.
  destruct (int_space ch) eqn:Hi; [|reflexivity].
  apply int_space_isspace in Hi. congruence.
Qed.

Lemma no_space_uint d : no_space (NilEmpty.string_of_uint d) = true.
Proof. unfold no_space. induction d; simpl; auto. Qed.

Lemma int_digits_uint d acc :
  int_digits (NilEmpty.string_of_uint d) false acc = Some (uint_val d acc).
Proof.
  revert acc; induction d; intros acc; cbn; auto;
    match goal with
    | |- context [digit_val ?ch] =>
        let v := eval vm_compute in (digit_val ch) in
        change (digit_val ch) with v; apply IHd
    end.
Qed.

Lemma uint_val_pos d a : uint_val d (Z.pos a) = Z.pos (Pos.of_uint_acc d a).
Proof.
  revert a; induction d; intros a; simpl; try reflexivity;
    match goal with
    | |- uint_val _ ?x = Z.pos (Pos.of_uint_acc _ ?y) =>
        replace x with (Z.pos y) by lia; apply IHd
    end.
Qed.

Lemma uint_val_zero d : uint_val d 0 = Z.of_N (Pos.of_uint d).
Proof.
  induction d; simpl; try reflexivity; try assumption;
    match goal with
    | |- uint_val _ ?x = Z.pos (Pos.of_uint_acc _ ?y) =>
        change x with (Z.pos y); apply uint_val_pos
    end.
Qed.

Lemma to_uint_not_nil p : Pos.to_uint p <> Nil.
Proof.
  intros H. pose proof (Unsigned.of_to p) as Hp. rewrite H in Hp. discriminate.
Qed.

Lemma int_body_pos p :
  int_body (NilEmpty.string_of_uint (Pos.to_uint p)) = Some (Z.pos p).
Proof.
  pose proof (int_digits_uint (Pos.to_uint p) 0) as Hd.
  rewrite uint_val_zero, Unsigned.of_to in Hd. simpl Z.of_N in Hd.
  pose proof (to_uint_not_nil p) as Hn.
  destruct (Pos.to_uint p); try congruence; exact Hd.
Qed.

Lemma string_of_uint_pos p :
  NilZero.string_of_uint (Pos.to_uint p) = NilEmpty.string_of_uint (Pos.to_uint p).
Proof.
  pose proof (to_uint_not_nil p). destruct (Pos.to_uint p); try congruence; reflexivity.
Qed.

Lemma no_space_py_str z : no_space (py_str z) = true.
Proof.
  destruct z as [|p|p]; unfold py_str; simpl; [reflexivity| |];
    rewrite string_of_uint_pos; apply no_space_uint.
Qed.

Lemma int_literal_py_str z : int_literal (py_str z) = Some z.
Proof.
  destruct z as [|p|p]; unfold py_str; simpl; [reflexivity| |].
  - rewrite string_of_uint_pos. pose proof (int_body_pos p) as Hb.
    pose proof (to_uint_not_nil p) as Hn.
    destruct (Pos.to_uint p); try congruence; exact Hb.
  - rewrite string_of_uint_pos, int_body_pos. reflexivity.
Qed.

Lemma py_int_py_str z : py_int (py_str z) = Some z.
Proof.
  unfold py_int.
  rewrite (strip_by_none_sp _ _ (none_sp_int_space _ (no_space_py_str z))).
  apply int_literal_py_str.
Qed.

Lemma py_int_padded ws1 z ws2 :
  blank ws1 = true -> blank ws2 = true ->
  py_int (strip (ws1 ++ py_str z ++ ws2)) = Some z.
Proof.
  intros H1 H2. unfold strip.
  rewrite (strip_by_padded _ _ _ _ H1 H2 (no_space_py_str z)). apply py_int_py_str.
Qed.

Lemma py_int_strip_py_str z : py_int (strip (py_str z)) = Some z.
Proof.
  unfold strip. rewrite (strip_by_none_sp _ _ (no_space_py_str z)). apply py_int_py_str.
Qed.

End DecimalText.

(** ** One process on its own *)

Section Running.

Variable E : env.

Lemma run_bind {A B : Type} (p : prog A) (f : A -> prog B) w :
  run E (bind p f) w =
  match run E p w with
  | (Returned a, w') => run E (f a) w'
  | (Raised e, w') => (Raised e, w')
  end.
Proof.
  revert w; induction p as [a|e|c k IH]; intros w; simpl; try reflexivity.
  destruct (handle E c w) as [r w']. apply IH.
Qed.

Lemma run_try_except {A : Type} (body : prog A) h w :
  run E (try_except body h) w =
  match run E body w with
  | (Returned a, w') => (Returned a, w')
  | (Raised e, w') =>
      match h e with Some q => run E q w' | None => (Raised e, w') end
  end.
Proof.
  revert w; induction body as [a|e|c k IH]; intros w; simpl; try reflexivity.
  - destruct (h e); reflexivity.
  - destruct (handle E c w) as [r w']. apply IH.
Qed.

Ltac norm_trace :=
  cbn [fs trace]; rewrite <- ?app_assoc; cbn [app]; try reflexivity.

Lemma get_pid_missing path w :
  fs w !! path = None ->
  run E (get_pid path) w =
  (Returned (-1),
   World (fs w) (trace w ++ [ReadText path; Logging ERROR not_found_msg])%list).
Proof.
  intros H. unfold get_pid. cbn. rewrite H. cbn. norm_trace.
Qed.

Lemma get_pid_invalid path content w :
  fs w !! path = Some content ->
  PyText.py_int (PyText.strip content) = None ->
  run E (get_pid path) w =
  (Returned (-1),
   World (fs w)
     (trace w ++ get_pid_calls path content ++ [Logging ERROR invalid_msg])%list).
Proof.
  intros H Hp. unfold get_pid. cbn. rewrite H. cbn.
  unfold int_of_str. rewrite Hp. cbn. norm_trace.
Qed.

Lemma get_pid_valid path content pid w :
  fs w !! path = Some content ->
  PyText.py_int (PyText.strip content) = Some pid ->
  run E (get_pid path) w =
  (Returned pid, World (fs w) (trace w ++ get_pid_calls path content)%list).
Proof.
  intros H Hp. unfold get_pid. cbn. rewrite H. cbn.
  unfold int_of_str. rewrite Hp. cbn. norm_trace.
Qed.

Lemma create_pid_file_run path pid w :
  run E (create_pid_file path pid) w =
  (Returned tt,
   World (<[path := PyText.py_str pid]> (fs w)) (trace w ++ create_calls path pid)%list).
Proof.
  unfold create_pid_file. cbn. rewrite insert_insert_eq. norm_trace.
Qed.

Lemma start_already_running path content w :
  fs w !! path = Some content ->
  run E (start path) w =
    (Returned 0, World (fs w) (trace w ++ already_running_calls path content)%list).
Proof.
  intros H. unfold start. cbn. rewrite H. cbn. norm_trace.
Qed.

(** The termination loop: every round delivered, or a round refused. *)
Lemma kill_loop_delivered pid n w :
  (forall j, (j < n)%nat ->
     kill_reply E (trace w ++ kill_calls pid j)%list pid SIGKILL = None) ->
  run E (for_range n (os_kill pid SIGKILL ;; time_sleep 2)) w =
  (Returned tt, World (fs w) (trace w ++ kill_calls pid n)%list).
Proof.
  revert w; induction n as [|n IH]; intros w H.
  - simpl. rewrite app_nil_r. destruct w; reflexivity.
  - pose proof (H O ltac:(lia)) as H0. simpl in H0. rewrite app_nil_r in H0.
    cbn. rewrite H0. cbn. rewrite IH.
    + norm_trace.
    + intros j Hj. specialize (H (S j) ltac:(lia)).
      cbn [fs trace]. rewrite <- !app_assoc. exact H.
Qed.

Lemma kill_loop_refused pid n i e w :
  (i < n)%nat ->
  (forall j, (j < i)%nat ->
     kill_reply E (trace w ++ kill_calls pid j)%list pid SIGKILL = None) ->
  kill_reply E (trace w ++ kill_calls pid i)%list pid SIGKILL = Some e ->
  run E (for_range n (os_kill pid SIGKILL ;; time_sleep 2)) w =
  (Raised e, World (fs w) (trace w ++ kill_calls pid i ++ [Kill pid SIGKILL])%list).
Proof.
  revert i w; induction n as [|n IH]; intros i w Hi H He; [lia|].
  destruct i as [|i].
  - simpl in He. rewrite app_nil_r in He. cbn. rewrite He. cbn. reflexivity.
  - pose proof (H O ltac:(lia)) as H0. simpl in H0. rewrite app_nil_r in H0.
    cbn. rewrite H0. cbn. rewrite (IH i); [norm_trace|lia| |].
    + intros j Hj. specialize (H (S j) ltac:(lia)).
      cbn [fs trace]. rewrite <- !app_assoc. exact H.
    + cbn [fs trace]. rewrite <- !app_assoc. exact He.
Qed.

(** [fork] as one process lives it, by what its two [os.fork()] answer. *)
Lemma fork_alone path w :
  let r1 := fork_reply E (trace w) in
  let t1 := (trace w ++ detach_calls)%list in
  let r2 := fork_reply E t1 in
  run E (fork path) w =
    if (r1 >? 0)%Z then
      (Raised (SystemExit 0), World (fs w) (trace w ++ [Fork])%list)
    else if (r2 >? 0)%Z then
      (Raised (SystemExit 0),
       World (<[path := PyText.py_str r2]> (fs w))
         (t1 ++ Fork :: create_calls path r2)%list)
    else
      (Returned r2, World (fs w) (t1 ++ grandchild_calls)%list).
Proof.
  intros r1 t1 r2. unfold fork. cbn. fold r1.
  destruct (r1 >? 0)%Z; cbn; [reflexivity|].
  rewrite <- !app_assoc. cbn [app]. fold detach_calls. fold t1. fold r2.
  destruct (r2 >? 0)%Z; cbn.
  - rewrite insert_insert_eq. unfold t1, detach_calls. norm_trace.
  - unfold t1, detach_calls. norm_trace.
Qed.

Arguments for_range : simpl never.

(** [stop] after a valid read, by the answer to the probe and to the loop. *)
Lemma stop_probe path content pid w :
  fs w !! path = Some content ->
  PyText.py_int (PyText.strip content) = Some pid ->
  pid <> -1 ->
  run E (stop path) w =
  let w1 := World (fs w) (trace w ++ get_pid_calls path content ++ [Kill pid 0])%list in
  match kill_reply E (trace w ++ get_pid_calls path content)%list pid 0 with
  | Some ProcessLookupError =>
      (Returned 0,
       World (delete path (fs w))
         (trace w ++ get_pid_calls path content ++ stale_calls path pid)%list)
  | Some e => (Raised e, w1)
  | None =>
      match run E (for_range 10 (os_kill pid SIGKILL ;; time_sleep 2)) w1 with
      | (Returned _, w2) =>
          (Returned 1, World (fs w2) (trace w2 ++ gave_up_calls pid)%list)
      | (Raised ProcessLookupError, w2) =>
          match fs w2 !! path with
          | Some _ =>
              (Returned 0,
               World (delete path (fs w2)) (trace w2 ++ tail (terminated_calls path pid))%list)
          | None =>
              (Raised FileNotFoundError,
               World (fs w2) (trace w2 ++ tail (terminated_calls path pid))%list)
          end
      | (Raised e, w2) => (Raised e, w2)
      end
  end.
Proof.
  intros H Hp Hn. unfold stop.
  rewrite run_bind, (get_pid_valid path content pid w H Hp).
  apply Z.eqb_neq in Hn. rewrite Hn.
  remember (for_range 10 (os_kill pid SIGKILL ;; time_sleep 2)) as loop.
  rewrite run_bind, run_try_except. cbn. unfold get_pid_calls.
  destruct (kill_reply E _ pid 0) as [e|]; cbn.
  - destruct e; cbn; try norm_trace.
    rewrite H. cbn. norm_trace.
  - rewrite run_bind, run_try_except, run_bind.
    rewrite <- ?app_assoc. cbn [app].
    match goal with
    | |- context [run E loop ?w1] =>
        destruct (run E loop w1) as [[[]|e] w2]; cbn
    end.
    + norm_trace.
    + destruct e; cbn; try reflexivity.
      destruct (fs w2 !! path); cbn; norm_trace.
Qed.

(** [stop] with nothing to act on. *)
Lemma stop_no_pid path w :
  (fs w !! path = None \/
   exists content, fs w !! path = Some content /\
                   (PyText.py_int (PyText.strip content) = None \/
                    PyText.py_int (PyText.strip content) = Some (-1))) ->
  exists calls,
    run E (stop path) w = (Returned 1, World (fs w) (trace w ++ calls)%list)
    /\ forallb quiet calls = true
    /\ signals calls = [].
Proof.
  intros [H|(content & H & [Hp|Hp])]; unfold stop; rewrite run_bind.
  - rewrite (get_pid_missing path w H). cbn. eexists; split; [reflexivity|].
    split; reflexivity.
  - rewrite (get_pid_invalid path content w H Hp). cbn.
    eexists; split; [reflexivity|]. split; reflexivity.
  - rewrite (get_pid_valid path content (-1) w H Hp). cbn.
    eexists; split; [reflexivity|]. split; reflexivity.
Qed.

End Running.

(** ** [start] and [stop] on a PID file *)

(** C1.  When a file exists at the PID-file path, whatever its content,
    [start] returns 0; its calls are two log records, the read and one more
    log record: the files are the same afterwards, the payload is not
    invoked, nothing is forked, nothing is written or removed. *)
Theorem start_is_noop_when_pid_file_exists E path content w :
  fs w !! path = Some content ->
  run E (start path) w =
    (Returned 0, World (fs w) (trace w ++ already_running_calls path content)%list)
  /\ forallb quiet (already_running_calls path content) = true.
Proof.
  intros H. split; [apply start_already_running, H|reflexivity].
Qed.

Lemma start_is_noop_when_pid_file_exists_witness :
  run (scripted []) (start demo_path) (demo_world "not a pid") =
    (Returned 0,
     World {[ demo_path := "not a pid" ]} (already_running_calls demo_path "not a pid")).
Proof.
  apply (start_is_noop_when_pid_file_exists (scripted []) demo_path "not a pid"
           (demo_world "not a pid")).
  vm_compute. reflexivity.
Defined.

(** C2.  [stop] on a live target (the PID file parses to a pid other than
    -1 and the probe signal is delivered): if SIGKILL is delivered in the
    rounds before round [i] (of the 10) and round [i] reports
    ProcessLookupError, the PID file is removed and [stop] returns 0; if
    SIGKILL is delivered in all 10 rounds, [stop] returns 1 after 10 signals
    and 10 sleeps of 2 seconds, and the files are unchanged. *)
Theorem stop_termination_loop E path content pid w :
  fs w !! path = Some content ->
  PyText.py_int (PyText.strip content) = Some pid ->
  pid <> -1 ->
  let t0 := (trace w ++ get_pid_calls path content)%list in
  let t1 := (t0 ++ [Kill pid 0])%list in
  kill_reply E t0 pid 0 = None ->
  (forall i, (i < 10)%nat ->
     (forall j, (j < i)%nat ->
        kill_reply E (t1 ++ kill_calls pid j)%list pid SIGKILL = None) ->
     kill_reply E (t1 ++ kill_calls pid i)%list pid SIGKILL = Some ProcessLookupError ->
     run E (stop path) w =
       (Returned 0,
        World (delete path (fs w))
          (t1 ++ kill_calls pid i ++ terminated_calls path pid)%list))
  /\
  ((forall j, (j < 10)%nat ->
      kill_reply E (t1 ++ kill_calls pid j)%list pid SIGKILL = None) ->
   run E (stop path) w =
     (Returned 1, World (fs w) (t1 ++ kill_calls pid 10 ++ gave_up_calls pid)%list)).
Proof.
  intros H Hp Hn t0 t1 Hk.
  pose proof (stop_probe E path content pid w H Hp Hn) as Hs.
  cbv zeta in Hs. fold t0 in Hs. rewrite Hk in Hs.
  replace (trace w ++ get_pid_calls path content ++ [Kill pid 0])%list with t1 in Hs
    by (unfold t1, t0; rewrite <- app_assoc; reflexivity).
  split.
  - intros i Hi Hd Hr.
    rewrite (kill_loop_refused E pid 10 i ProcessLookupError (World (fs w) t1) Hi Hd Hr)
      in Hs.
    cbn [fs trace] in Hs. rewrite H in Hs. rewrite Hs.
    unfold terminated_calls. cbn [tail]. rewrite <- !app_assoc. reflexivity.
  - intros Hd.
    rewrite (kill_loop_delivered E pid 10 (World (fs w) t1) Hd) in Hs.
    cbn [fs trace] in Hs. rewrite Hs. rewrite <- !app_assoc. reflexivity.
Qed.

Lemma stop_termination_loop_witness :
  (let r := run (scripted [None; None; None; Some ProcessLookupError])
              (stop demo_path) (demo_world "4242") in
   r.1 = Returned 0 /\ fs r.2 !! demo_path = None /\ slept (trace r.2) = 4)
  /\
  (let r := run (scripted []) (stop demo_path) (demo_world "4242") in
   r.1 = Returned 1 /\ fs r.2 !! demo_path = Some "4242" /\
   slept (trace r.2) = 20 /\ length (signals (trace r.2)) = 11%nat).
Proof.
  split.
  - rewrite (proj1 (stop_termination_loop
               (scripted [None; None; None; Some ProcessLookupError])
               demo_path "4242" 4242 (demo_world "4242")
               ltac:(vm_compute; reflexivity) ltac:(vm_compute; reflexivity)
               ltac:(lia) ltac:(vm_compute; reflexivity)) 2%nat ltac:(lia)).
    + vm_compute. repeat split; reflexivity.
    + intros [|[|j]] Hj; try lia; vm_compute; reflexivity.
    + vm_compute. reflexivity.
  - rewrite (proj2 (stop_termination_loop (scripted [])
               demo_path "4242" 4242 (demo_world "4242")
               ltac:(vm_compute; reflexivity) ltac:(vm_compute; reflexivity)
               ltac:(lia) ltac:(vm_compute; reflexivity))).
    + vm_compute. repeat split; reflexivity.
    + intros j Hj. do 10 (destruct j as [|j]; [vm_compute; reflexivity|]). lia.
Defined.

(** C3.  When the PID file parses to a pid (other than -1) and the probe
    signal reports that no such process exists, [stop] logs the warning
    that the process does not exist, removes the PID file and returns 0. *)
Theorem stop_clears_stale_pid_file E path content pid w :
  fs w !! path = Some content ->
  PyText.py_int (PyText.strip content) = Some pid ->
  pid <> -1 ->
  kill_reply E (trace w ++ get_pid_calls path content)%list pid 0
    = Some ProcessLookupError ->
  run E (stop path) w =
    (Returned 0,
     World (delete path (fs w))
       (trace w ++ get_pid_calls path content ++ stale_calls path pid)%list).
Proof.
  intros H Hp Hn Hk. rewrite (stop_probe E path content pid w H Hp Hn).
  cbv zeta. rewrite Hk. reflexivity.
Qed.

Lemma stop_clears_stale_pid_file_witness :
  run (scripted [Some ProcessLookupError]) (stop demo_path) (demo_world "4242") =
    (Returned 0,
     World ∅ (get_pid_calls demo_path "4242" ++ stale_calls demo_path 4242)%list).
Proof.
  rewrite (stop_clears_stale_pid_file (scripted [Some ProcessLookupError])
             demo_path "4242" 4242 (demo_world "4242")).
  - vm_compute. reflexivity.
  - vm_compute. reflexivity.
  - vm_compute. reflexivity.
  - lia.
  - vm_compute. reflexivity.
Defined.

(** C4.  When no file exists at the PID-file path, and when the file exists
    but its trimmed content does not parse as an integer, [stop] returns 1;
    it sends no signal, and none of its calls creates, writes or removes a
    file: the files are the same afterwards. *)
Theorem stop_without_usable_pid_file E path w :
  (fs w !! path = None \/
   exists content, fs w !! path = Some content /\
                   PyText.py_int (PyText.strip content) = None) ->
  exists calls,
    run E (stop path) w = (Returned 1, World (fs w) (trace w ++ calls)%list)
    /\ forallb quiet calls = true
    /\ signals calls = [].
Proof.
  intros [H|(content & H & Hp)]; apply stop_no_pid; [left|right]; eauto.
Qed.

Lemma stop_without_usable_pid_file_witness :
  (exists calls,
     run (scripted []) (stop demo_path) (World ∅ []) =
       (Returned 1, World ∅ ([] ++ calls)%list)
     /\ forallb quiet calls = true /\ signals calls = [])
  /\
  (exists calls,
     run (scripted []) (stop demo_path) (demo_world "12 34") =
       (Returned 1, World {[ demo_path := "12 34" ]} ([] ++ calls)%list)
     /\ forallb quiet calls = true /\ signals calls = []).
Proof.
  split.
  - apply (stop_without_usable_pid_file (scripted []) demo_path (World ∅ [])).
    left. vm_compute. reflexivity.
  - apply (stop_without_usable_pid_file (scripted []) demo_path (demo_world "12 34")).
    right. exists "12 34". split; vm_compute; reflexivity.
Defined.

(** C7, amended.  [get_pid] changes no file.  It answers -1 after logging
    the "not running" error exactly when the file does not exist; it answers
    -1 after logging "PID file is invalid" exactly when the file exists and
    its trimmed content does not parse as an integer; and when the trimmed
    content parses as an integer it answers that integer, zero and negative
    ones included, with no error logged. *)
Theorem get_pid_classification E path w :
  exists r calls,
    run E (get_pid path) w = (r, World (fs w) (trace w ++ calls)%list) /\
    match fs w !! path with
    | None =>
        r = Returned (-1) /\ records calls = [(ERROR, not_found_msg)]
    | Some content =>
        match PyText.py_int (PyText.strip content) with
        | None =>
            r = Returned (-1) /\
            records calls = [(DEBUG, read_msg path content); (ERROR, invalid_msg)]
        | Some pid =>
            r = Returned pid /\ records calls = [(DEBUG, read_msg path content)]
        end
    end.
Proof.
  destruct (fs w !! path) as [content|] eqn:H.
  - destruct (PyText.py_int (PyText.strip content)) as [pid|] eqn:Hp.
    + rewrite (get_pid_valid E path content pid w H Hp).
      eexists _, _; split; [reflexivity|]. split; reflexivity.
    + rewrite (get_pid_invalid E path content w H Hp).
      eexists _, _; split; [reflexivity|]. split; reflexivity.
  - rewrite (get_pid_missing E path w H).
    eexists _, _; split; [reflexivity|]. split; reflexivity.
Qed.

(** C7 as stated fails: a PID file that holds 0, or -7, is not rejected;
    [get_pid] answers 0, and -7, and logs no error. *)
Lemma get_pid_accepts_non_positive :
  run (scripted []) (get_pid demo_path) (demo_world "0") =
    (Returned 0, World {[ demo_path := "0" ]} (get_pid_calls demo_path "0"))
  /\
  run (scripted []) (get_pid demo_path) (demo_world "-7") =
    (Returned (-7), World {[ demo_path := "-7" ]} (get_pid_calls demo_path "-7")).
Proof. split; vm_compute; reflexivity. Qed.

(** C8.  When the probe signal fails with PermissionError, [stop] neither
    warns of a stale file, nor removes the PID file, nor returns: the
    PermissionError leaves [stop] as it is, right after the probe. *)
Theorem stop_surfaces_permission_error E path content pid w :
  fs w !! path = Some content ->
  PyText.py_int (PyText.strip content) = Some pid ->
  pid <> -1 ->
  kill_reply E (trace w ++ get_pid_calls path content)%list pid 0
    = Some PermissionError ->
  run E (stop path) w =
    (Raised PermissionError,
     World (fs w) (trace w ++ get_pid_calls path content ++ [Kill pid 0])%list).
Proof.
  intros H Hp Hn Hk. rewrite (stop_probe E path content pid w H Hp Hn).
  cbv zeta. rewrite Hk. reflexivity.
Qed.

Lemma stop_surfaces_permission_error_witness :
  run (scripted [Some PermissionError]) (stop demo_path) (demo_world "1") =
    (Raised PermissionError,
     World {[ demo_path := "1" ]} (get_pid_calls demo_path "1" ++ [Kill 1 0])%list).
Proof.
  rewrite (stop_surfaces_permission_error (scripted [Some PermissionError])
             demo_path "1" 1 (demo_world "1")).
  - vm_compute. reflexivity.
  - vm_compute. reflexivity.
  - vm_compute. reflexivity.
  - lia.
  - vm_compute. reflexivity.
Defined.

(** C9.  For every positive pid, [create_pid_file] followed by [get_pid]
    answers exactly that pid, and [get_pid] answers it as well when the
    stored text is the decimal pid with whitespace before and after it. *)
Theorem pid_file_round_trip E path pid w :
  0 < pid ->
  run E (create_pid_file path pid ;; get_pid path) w =
    (Returned pid,
     World (<[path := PyText.py_str pid]> (fs w))
       (trace w ++ create_calls path pid ++ get_pid_calls path (PyText.py_str pid))%list)
  /\
  forall ws1 ws2 w',
    blank ws1 = true -> blank ws2 = true ->
    fs w' !! path = Some (ws1 ++ PyText.py_str pid ++ ws2) ->
    (run E (get_pid path) w').1 = Returned pid.
Proof.
  intros _. split.
  - rewrite run_bind, create_pid_file_run.
    rewrite (get_pid_valid E path (PyText.py_str pid) pid).
    + cbn [fs trace]. rewrite <- app_assoc. reflexivity.
    + cbn [fs]. apply lookup_insert_eq.
    + apply py_int_strip_py_str.
  - intros ws1 ws2 w' H1 H2 Hf.
    rewrite (get_pid_valid E path _ pid w' Hf (py_int_padded ws1 pid ws2 H1 H2)).
    reflexivity.
Qed.

Lemma pid_file_round_trip_witness :
  (run (scripted []) (create_pid_file demo_path 12345 ;; get_pid demo_path)
     (World ∅ [])).1 = Returned 12345
  /\
  (run (scripted []) (get_pid demo_path)
     (demo_world ("  " ++ PyText.py_str 12345 ++ newline))).1 = Returned 12345.
Proof.
  pose proof (pid_file_round_trip (scripted []) demo_path 12345 (World ∅ [])
                ltac:(lia)) as [H1 H2].
  split.
  - rewrite H1. reflexivity.
  - apply (H2 "  " newline); vm_compute; reflexivity.
Defined.

(** C10.  While the PID file exists and its trimmed content does not parse
    as an integer, or parses to -1, every [start] returns 0 and every [stop]
    returns 1, in any series of calls; none of them sends a signal, invokes
    the payload, forks, or creates, writes or removes a file, so the files
    stay the same and the next call finds the same PID file. *)
Theorem unparsable_pid_file_blocks_start_and_stop E path content w acts :
  fs w !! path = Some content ->
  (PyText.py_int (PyText.strip content) = None \/
   PyText.py_int (PyText.strip content) = Some (-1)) ->
  exists calls,
    run_all E acts path w =
      (map blocked_code acts, World (fs w) (trace w ++ calls)%list)
    /\ forallb quiet calls = true /\ signals calls = [].
Proof.
  intros H Hp. revert w H. induction acts as [|a acts IH]; intros w H.
  - exists []. simpl. rewrite app_nil_r. destruct w; auto.
  - assert (exists calls,
      run E (lifecycle a path) w = (blocked_code a, World (fs w) (trace w ++ calls)%list)
      /\ forallb quiet calls = true /\ signals calls = []) as (c1 & Hr & Hq & Hs).
    { destruct a; unfold lifecycle, blocked_code.
      - exists (already_running_calls path content).
        rewrite (start_already_running E path content w H). auto.
      - apply stop_no_pid. right. eauto. }
    simpl. rewrite Hr.
    destruct (IH (World (fs w) (trace w ++ c1)%list) H) as (c2 & Hr2 & Hq2 & Hs2).
    rewrite Hr2. exists (c1 ++ c2)%list. cbn [fs trace].
    rewrite <- app_assoc. split; [reflexivity|]. split.
    + rewrite forallb_app, Hq, Hq2. reflexivity.
    + unfold signals in *. rewrite omap_app, Hs, Hs2. reflexivity.
Qed.

Lemma unparsable_pid_file_blocks_start_and_stop_witness :
  exists calls,
    run_all (scripted []) [Start; Stop; Start; Stop] demo_path (demo_world "-1") =
      ([Returned 0; Returned 1; Returned 0; Returned 1],
       World {[ demo_path := "-1" ]} ([] ++ calls)%list)
    /\ forallb quiet calls = true /\ signals calls = [].
Proof.
  apply (unparsable_pid_file_blocks_start_and_stop (scripted []) demo_path "-1"
           (demo_world "-1") [Start; Stop; Start; Stop]).
  - vm_compute. reflexivity.
  - right. vm_compute. reflexivity.
Defined.

(** ** The processes of a fork *)

(** Every step of every process keeps the roles of the detaching protocol. *)
Section Roles.
Import Pool Detach.
Context {A : Type}.
Variables (E : env) (m : gmap string string) (path : string) (p0 c g : Z) (rest : list Z).
Variable final : stage -> prog A -> Prop.
Hypothesis p0_c : p0 <> c.
Hypothesis p0_g : p0 <> g.
Hypothesis c_g : c <> g.

Local Abbreviation follows := (follows m path c g final).
Local Abbreviation answers := (answers m).
Local Abbreviation stage_of := (stage_of p0 c g).
Local Abbreviation event_ok := (event_ok path c g).
Local Abbreviation allowed := (allowed path g).
Local Abbreviation inv := (inv m path p0 c g final rest).

Lemma handle_answers st cm w :
  (st = Caller -> fs w = m) -> cm <> Fork -> answers st cm (handle E cm w).1.
Proof.
  intros Hm Hf. destruct cm; simpl; try congruence; auto.
  - destruct st; try solve [destruct (fs w !! path0); simpl; eauto].
    rewrite <- (Hm eq_refl). destruct (fs w !! path0); reflexivity.
  - destruct (fs w !! path0); simpl; eauto.
  - destruct (kill_reply E (trace w) pid sig); simpl; eauto.
  - destruct (app_effect E (fs w)) as [[e|] m']; simpl; eauto.
Qed.

Lemma step_call p cm k (s : system A) :
  procs s !! p = Some (Do cm k) -> cm <> Fork ->
  step E p s =
  System (fs (handle E cm (World (files s) (map snd (history s)))).2)
         (history s ++ [(p, cm)])
         (<[p := k (handle E cm (World (files s) (map snd (history s)))).1]> (procs s))
         (free_pids s).
Proof.
  intros Hp Hf. unfold step. rewrite Hp.
  destruct cm; try congruence;
    destruct (handle E _ _) as [r w]; reflexivity.
Qed.

Lemma step_fork p k child pids (s : system A) :
  procs s !! p = Some (Do Fork k) -> free_pids s = child :: pids ->
  step E p s =
  System (files s) (history s ++ [(p, Fork)])
         (<[child := k (Returned (VInt 0))]>
            (<[p := k (Returned (VInt child))]> (procs s)))
         pids.
Proof. intros Hp Hf. unfold step. rewrite Hp, Hf. reflexivity. Qed.

Lemma step_idle p (s : system A) :
  match procs s !! p with Some (Do _ _) => False | _ => True end ->
  step E p s = s.
Proof.
  unfold step. destruct (procs s !! p) as [[| |]|]; try reflexivity. intros [].
Qed.

Lemma stage_of_inv n wrote p st :
  (n <= 2)%nat -> stage_of n wrote p = Some st ->
  match st with
  | Caller => p = p0 /\ n = O
  | CallerGone => p = p0 /\ n <> O
  | Child => p = c /\ n = 1%nat
  | ChildForked => p = c /\ n = 2%nat /\ wrote = false
  | ChildWrote => p = c /\ n = 2%nat /\ wrote = true
  | Grandchild => p = g /\ n = 2%nat
  end.
Proof.
  intros Hn. unfold Detach.stage_of.
  repeat case_decide; destruct n as [|[|[|n]]]; destruct wrote;
    intros ?; simplify_eq; try lia; auto.
Qed.

Lemma handle_keeps_files cm w :
  is_mutation cm = false -> is_app cm = false -> fs (handle E cm w).2 = fs w.
Proof.
  destruct cm; simpl; try discriminate; intros _ _; try reflexivity.
  - destruct (fs w !! path0); reflexivity.
Qed.

Lemma caller_keeps_files cm : allowed Caller cm -> is_mutation cm = false /\ is_app cm = false.
Proof. destruct cm; simpl; intuition discriminate. Qed.

Lemma follows_call st cm k :
  follows st (Do cm k) -> cm <> Fork ->
  allowed st cm /\ forall r, answers st cm r -> follows (next st cm) (k r).
Proof. intros [Ha Hk] Hf. split; [exact Ha|]. destruct cm; try congruence; exact Hk. Qed.

Lemma allowed_event n wrote p st cm :
  (n <= 2)%nat -> stage_of n wrote p = Some st -> allowed st cm -> event_ok (p, cm).
Proof.
  intros Hn Hst Ha. pose proof (stage_of_inv n wrote p st Hn Hst) as Hi.
  destruct cm; unfold Detach.event_ok; simpl in *; auto;
    destruct_and?; subst; simpl in Hi; intuition.
Qed.

Lemma stage_after_call n wrote p st cm :
  (n <= 2)%nat -> stage_of n wrote p = Some st -> allowed st cm ->
  stage_of n (wrote || is_write cm) p = Some (next st cm).
Proof.
  intros Hn Hst Ha. pose proof (stage_of_inv n wrote p st Hn Hst) as Hi.
  destruct cm; simpl in *; rewrite ?orb_false_r; auto.
  destruct Ha as (-> & _ & _). destruct Hi as (-> & -> & ->).
  unfold Detach.stage_of. repeat case_decide; simplify_eq; reflexivity.
Qed.

Lemma stage_of_others n wrote p st cm q :
  (n <= 2)%nat -> stage_of n wrote p = Some st -> allowed st cm -> q <> p ->
  stage_of n (wrote || is_write cm) q = stage_of n wrote q.
Proof.
  intros Hn Hst Ha Hq. pose proof (stage_of_inv n wrote p st Hn Hst) as Hi.
  destruct cm; simpl in *; rewrite ?orb_false_r; auto.
  destruct Ha as (-> & _ & _). destruct Hi as (-> & -> & ->).
  unfold Detach.stage_of. repeat case_decide; simplify_eq; reflexivity.
Qed.

Lemma inv_step p s : inv s -> inv (step E p s).
Proof.
  intros (n & wrote & Hn & Hfree & Hm & Hprocs & Hw & Hev).
  destruct (procs s !! p) as [[a|e|cm k]|] eqn:Hp;
    try (rewrite step_idle by (rewrite Hp; exact I); exists n, wrote; tauto).
  destruct (Hprocs p _ Hp) as (st & Hst & Hfol).
  assert (cm = Fork \/ cm <> Fork) as [->|Hcm]
    by (destruct cm; (left; reflexivity) || (right; discriminate)).
  - (* a fork *)
    destruct Hfol as [_ Hk].
    pose proof (stage_of_inv n wrote p st Hn Hst) as Hi.
    destruct st; try contradiction; destruct Hk as [Hparent Hchild].
    + destruct Hi as [-> ->]. simpl in Hfree.
      rewrite (step_fork _ _ _ _ _ Hp Hfree).
      exists 1%nat, wrote. simpl. split_and!.
      * lia.
      * reflexivity.
      * discriminate.
      * intros q Q HQ.
        destruct (decide (q = c)) as [->|Hqc].
        { rewrite lookup_insert_eq in HQ. simplify_eq.
          exists Child. split; [|exact Hchild].
          unfold Detach.stage_of. repeat case_decide; simplify_eq; reflexivity. }
        rewrite lookup_insert_ne in HQ by congruence.
        destruct (decide (q = p0)) as [->|Hq0].
        { rewrite lookup_insert_eq in HQ. simplify_eq.
          exists CallerGone. split; [|exact Hparent].
          unfold Detach.stage_of. repeat case_decide; simplify_eq; reflexivity. }
        rewrite lookup_insert_ne in HQ by congruence.
        destruct (Hprocs q Q HQ) as (st' & Hst' & _).
        unfold Detach.stage_of in Hst'. repeat case_decide; simplify_eq.
      * intros Hwr. apply elem_of_app. left. exact (Hw Hwr).
      * apply Forall_app. split; [exact Hev|]. repeat constructor.
    + destruct Hi as [-> ->]. simpl in Hfree.
      rewrite (step_fork _ _ _ _ _ Hp Hfree).
      exists 2%nat, false. simpl. split_and!.
      * lia.
      * reflexivity.
      * discriminate.
      * intros q Q HQ.
        destruct (decide (q = g)) as [->|Hqg].
        { rewrite lookup_insert_eq in HQ. simplify_eq.
          exists Grandchild. split; [|exact Hchild].
          unfold Detach.stage_of. repeat case_decide; simplify_eq; reflexivity. }
        rewrite lookup_insert_ne in HQ by congruence.
        destruct (decide (q = c)) as [->|Hqc].
        { rewrite lookup_insert_eq in HQ. simplify_eq.
          exists ChildForked. split; [|exact Hparent].
          unfold Detach.stage_of. repeat case_decide; simplify_eq; reflexivity. }
        rewrite lookup_insert_ne in HQ by congruence.
        destruct (Hprocs q Q HQ) as (st' & Hst' & Hf').
        exists st'. split; [|exact Hf'].
        unfold Detach.stage_of in *. repeat case_decide; simplify_eq; reflexivity.
      * discriminate.
      * apply Forall_app. split; [exact Hev|]. repeat constructor.
  - (* any other call *)
    destruct (follows_call _ _ _ Hfol Hcm) as [Ha Hk].
    rewrite (step_call _ _ _ _ Hp Hcm).
    exists n, (wrote || is_write cm). simpl. split_and!.
    + exact Hn.
    + exact Hfree.
    + intros ->. rewrite <- (Hm eq_refl).
      pose proof (stage_of_inv O wrote p st Hn Hst) as Hi.
      assert (st = Caller) as -> by
        (destruct st; simpl in Hi; destruct_and?; try congruence; lia).
      destruct (caller_keeps_files cm Ha) as [H1 H2].
      exact (handle_keeps_files cm (World (files s) (map snd (history s))) H1 H2).
    + intros q Q HQ.
      destruct (decide (q = p)) as [->|Hq].
      * rewrite lookup_insert_eq in HQ. simplify_eq.
        exists (next st cm). split.
        -- eapply stage_after_call; eauto.
        -- apply Hk, handle_answers; [|exact Hcm].
           intros ->. destruct (stage_of_inv n wrote p Caller Hn Hst) as [_ ->].
           apply (Hm eq_refl).
      * rewrite lookup_insert_ne in HQ by congruence.
        destruct (Hprocs q Q HQ) as (st' & Hst' & Hf').
        exists st'. split; [|exact Hf'].
        rewrite (stage_of_others n wrote p st cm q); auto.
    + intros Hwr. apply elem_of_app. apply orb_true_iff in Hwr as [Hwr|Hwr].
      * left. auto.
      * right. destruct cm; try discriminate. simpl in Ha.
        destruct Ha as (-> & -> & ->).
        destruct (stage_of_inv n wrote p _ Hn Hst) as (-> & _ & _).
        apply list_elem_of_singleton. reflexivity.
    + apply Forall_app. split; [exact Hev|].
      constructor; [|constructor]. eapply allowed_event; eauto.
Qed.

Lemma inv_exec sched s : inv s -> inv (exec E sched s).
Proof.
  revert s; induction sched as [|p sched IH]; intros s Hs; simpl; auto using inv_step.
Qed.

Lemma inv_boot main :
  follows Caller main -> inv (boot p0 main m (c :: g :: rest)).
Proof.
  intros Hmain. exists O, false. simpl. split_and!.
  - lia.
  - reflexivity.
  - reflexivity.
  - intros p P [-> <-]%lookup_singleton_Some.
    exists Caller. split; [|exact Hmain].
    unfold Detach.stage_of. case_decide; congruence.
  - discriminate.
  - constructor.
Qed.

End Roles.

(** [fork] and [start] keep to the protocol. *)

Section Conformance.
Import Pool Detach.
Variables (m : gmap string string) (path : string) (c g : Z).
Hypothesis c_pos : 0 < c.
Hypothesis g_pos : 0 < g.

Ltac protocol :=
  repeat first
    [ progress cbn
    | progress (rewrite ?(proj2 (Z.gtb_lt c 0) c_pos), ?(proj2 (Z.gtb_lt g 0) g_pos))
    | match goal with
      | |- _ /\ _ => split
      | |- forall _, _ => intro
      | |- True => exact I
      | |- _ = _ => reflexivity
      | H : _ \/ _ |- _ => destruct H
      | H : exists _, _ |- _ => destruct H
      | H : False |- _ => destruct H
      | H : ?r = _ |- _ => is_var r; subst r
      end ].

Lemma fork_follows : follows m path c g final_fork Caller (fork path).
Proof. unfold fork. protocol. Qed.

Lemma start_follows : follows m path c g (final_start m path) Caller (start path).
Proof.
  unfold start. protocol. destruct (m !! path) eqn:Hm; protocol. eauto.
Qed.

End Conformance.

(** ** What [fork] and [start] do across their processes *)

Section Detaching.

Import Pool Detach.

(** C5, amended.  For every path with no PID file at the start, and however
    the processes of [start] take turns: the PID file is opened and written
    only by the first child, inside [fork], and the text written is the
    decimal form of the pid that its [os.fork()] answered, the pid of the
    grandchild; only the grandchild invokes the payload and removes the
    file; the original process ends by [sys.exit()] after its fork; the
    first child ends by [sys.exit()], and only after that write; [get_pid]
    reads the written text back as the grandchild's pid.  The write is not
    ordered before the payload. *)
Theorem pid_file_is_written_by_first_child E m path p0 c g rest sched :
  m !! path = None ->
  0 < c -> 0 < g -> p0 <> c -> p0 <> g -> c <> g ->
  let s := exec E sched (boot p0 (start path) m (c :: g :: rest)) in
  Forall (event_ok path c g) (history s) /\
  (forall P, procs s !! p0 = Some P -> finished P = true ->
     P = Raise (SystemExit 0)) /\
  (forall P, procs s !! c = Some P -> finished P = true ->
     P = Raise (SystemExit 0) /\
     (c, WriteText path (PyText.py_str g)) ∈ history s) /\
  (forall w, fs w !! path = Some (PyText.py_str g) ->
     (run E (get_pid path) w).1 = Returned g).
Proof.
  intros Hm Hc Hg H1 H2 H3 s.
  assert (inv m path p0 c g (final_start m path) rest s)
    as (n & wrote & Hn & _ & _ & Hprocs & Hw & Hev)
    by (apply inv_exec; auto; apply inv_boot; auto; apply start_follows; auto).
  split_and!.
  - exact Hev.
  - intros P Hp Hfin. destruct (Hprocs p0 P Hp) as (st & Hst & Hfol).
    pose proof (stage_of_inv p0 c g H1 H2 H3 n wrote p0 st Hn Hst) as Hi.
    destruct P as [a|e|cm k]; try discriminate;
      destruct st; simpl in Hfol, Hi; destruct_and?; try congruence;
      match goal with
      | H : is_Some _ |- _ => rewrite Hm in H; destruct H; discriminate
      end.
  - intros P Hp Hfin. destruct (Hprocs c P Hp) as (st & Hst & Hfol).
    pose proof (stage_of_inv p0 c g H1 H2 H3 n wrote c st Hn Hst) as Hi.
    destruct P as [a|e|cm k]; try discriminate;
      destruct st; simpl in Hfol, Hi; destruct_and?; try congruence;
      try contradiction; subst; auto.
  - intros w Hf.
    rewrite (get_pid_valid E path _ g w Hf (py_int_strip_py_str g)). reflexivity.
Qed.

Lemma pid_file_is_written_by_first_child_witness :
  let s := exec (scripted []) in_turn (boot 100 (start demo_path) ∅ [101; 102]) in
  files s !! demo_path = Some "102" /\
  procs s !! 101 = Some (Raise (SystemExit 0)) /\
  Forall (event_ok demo_path 101 102) (history s).
Proof.
  split; [vm_compute; reflexivity|]. split; [vm_compute; reflexivity|].
  apply (pid_file_is_written_by_first_child (scripted []) ∅ demo_path 100 101 102 []
           in_turn); try lia; reflexivity.
Defined.

(** C5 as stated fails: when the grandchild (102) runs as soon as it exists,
    its last call is the payload and there is still no PID file, the first
    child (101) has not come to write it. *)
Lemma payload_runs_before_pid_file_exists :
  let s := exec (scripted []) grandchild_first
             (boot 100 (start demo_path) ∅ [101; 102]) in
  last (history s) = Some (102, App) /\ files s !! demo_path = None.
Proof. vm_compute. split; reflexivity. Qed.

(** C6, amended.  However the processes that [fork] creates take turns, a
    process that has come to the end of [fork] is either the grandchild, in
    which [fork] has returned, and returned 0 (the answer of the second
    [os.fork()] in the child), or the original process or the first child,
    which have not returned but left through [sys.exit()]. *)
Theorem fork_returns_only_in_grandchild E m path p0 c g rest sched p P :
  0 < c -> 0 < g -> p0 <> c -> p0 <> g -> c <> g ->
  procs (exec E sched (boot p0 (fork path) m (c :: g :: rest))) !! p = Some P ->
  finished P = true ->
  (p = g /\ P = Ret 0) \/ ((p = p0 \/ p = c) /\ P = Raise (SystemExit 0)).
Proof.
  intros Hc Hg H1 H2 H3 Hp Hfin.
  assert (inv m path p0 c g final_fork rest
            (exec E sched (boot p0 (fork path) m (c :: g :: rest))))
    as (n & wrote & Hn & _ & _ & Hprocs & _ & _)
    by (apply inv_exec; auto; apply inv_boot; auto; apply fork_follows; auto).
  destruct (Hprocs p P Hp) as (st & Hst & Hfol).
  pose proof (stage_of_inv p0 c g H1 H2 H3 n wrote p st Hn Hst) as Hi.
  destruct P as [a|e|cm k]; try discriminate;
    destruct st; simpl in Hfol; try contradiction; destruct_and?; subst; auto.
Qed.

Lemma fork_returns_only_in_grandchild_witness :
  procs (exec (scripted []) fork_in_turn
           (boot 100 (fork demo_path) ∅ [101; 102])) !! 102 = Some (Ret 0)
  /\ ((102 = 102 /\ @Ret Z 0 = Ret 0) \/
      ((102 = 100 \/ 102 = 101) /\ @Ret Z 0 = Raise (SystemExit 0))).
Proof.
  split; [vm_compute; reflexivity|].
  apply (fork_returns_only_in_grandchild (scripted []) ∅ demo_path 100 101 102 []
           fork_in_turn 102 (Ret 0));
    try lia; vm_compute; reflexivity.
Defined.

(** C6 as stated fails: in the grandchild, whose pid is 102 (the first child
    wrote 102 to the PID file), [fork] returns 0. *)
Lemma fork_returns_zero_not_grandchild_pid :
  let s := exec (scripted []) fork_in_turn
             (boot 100 (fork demo_path) ∅ [101; 102]) in
  procs s !! 102 = Some (Ret 0) /\
  procs s !! 101 = Some (Raise (SystemExit 0)) /\
  procs s !! 100 = Some (Raise (SystemExit 0)) /\
  files s !! demo_path = Some "102".
Proof. vm_compute. repeat split; reflexivity. Qed.

End Detaching.

(** * More about the code *)

(** ** The ways [stop] ends *)

Section Stopping.

Variable E : env.
Lemma first_refusal (reply : nat -> option exn) n :
  exists i, (i <= n)%nat /\ (forall j, (j < i)%nat -> reply j = None) /\
            (i = n \/ exists e, reply i = Some e).
Proof.
  induction n as [|n (i & Hi & Hd & Hend)].
  - exists O. split; [lia|]. split; [intros j Hj; lia|]. auto.
  - destruct Hend as [->|He].
    + destruct (reply n) as [e|] eqn:Hn.
      * exists n. split; [lia|]. split; [exact Hd|]. eauto.
      * exists (S n). split; [lia|]. split; [|auto].
        intros j Hj. destruct (decide (j = n)) as [->|]; [exact Hn|apply Hd; lia].
    + exists i. split; [lia|]. split; [exact Hd|]. auto.
Qed.

Lemma kill_loop_cases pid n w :
  exists i, (i <= n)%nat /\
    ((i = n /\
      run E (for_range n (os_kill pid SIGKILL ;; time_sleep 2)) w =
        (Returned tt, World (fs w) (trace w ++ kill_calls pid n)%list))
     \/
     (i < n)%nat /\ exists e,
      kill_reply E (trace w ++ kill_calls pid i)%list pid SIGKILL = Some e /\
      run E (for_range n (os_kill pid SIGKILL ;; time_sleep 2)) w =
        (Raised e, World (fs w) (trace w ++ kill_calls pid i ++ [Kill pid SIGKILL])%list)).
Proof.
  destruct (first_refusal
              (fun j => kill_reply E (trace w ++ kill_calls pid j)%list pid SIGKILL) n)
    as (i & Hi & Hd & Hend).
  exists i. split; [exact Hi|].
  destruct Hend as [->|[e He]].
  - left. split; [reflexivity|]. apply kill_loop_delivered. exact Hd.
  - assert (i = n \/ (i < n)%nat) as [->|Hlt] by lia.
    + left. split; [reflexivity|]. apply kill_loop_delivered. exact Hd.
    + right. split; [exact Hlt|]. exists e. split; [exact He|].
      apply kill_loop_refused; assumption.
Qed.

Lemma stop_valid_cases path content pid w :
  fs w !! path = Some content ->
  PyText.py_int (PyText.strip content) = Some pid ->
  pid <> -1 ->
  exists c, stop_case_ok E (trace w ++ get_pid_calls path content)%list pid c /\
    run E (stop path) w =
      (stop_case_result c,
       World (stop_case_files path (fs w) c)
         (trace w ++ get_pid_calls path content ++ stop_case_calls path pid c)%list).
Proof.
  intros H Hp Hn. rewrite (stop_probe E path content pid w H Hp Hn). cbv zeta.
  destruct (kill_reply E _ pid 0) as [e|] eqn:Hk.
  - assert (e = ProcessLookupError \/ e <> ProcessLookupError) as [->|He]
      by (destruct e; (left; reflexivity) || (right; discriminate)).
    + exists Stale. split; [exact I|reflexivity].
    + exists (ProbeFailed e). split; [split; [exact He|exact Hk]|].
      destruct e; try reflexivity. congruence.
  - destruct (kill_loop_cases pid 10
                (World (fs w) (trace w ++ get_pid_calls path content ++ [Kill pid 0])%list))
      as (i & Hi & [[-> Hr]|(Hlt & e & He & Hr)]); rewrite Hr; cbn [fs trace].
    + exists GaveUp. split; [exact I|]. cbn [stop_case_result stop_case_files stop_case_calls].
      rewrite <- !app_assoc. reflexivity.
    + assert (e = ProcessLookupError \/ e <> ProcessLookupError) as [->|Hne]
        by (destruct e; (left; reflexivity) || (right; discriminate)).
      * exists (Terminated i). split; [exact Hlt|]. rewrite H.
        cbn [stop_case_result stop_case_files stop_case_calls terminated_calls tail].
        rewrite <- !app_assoc. reflexivity.
      * exists (LoopFailed i e). split.
        { split; [exact Hlt|]. split; [exact Hne|].
          cbn [fs trace] in He. rewrite <- !app_assoc in He.
          rewrite <- app_assoc. exact He. }
        cbn [stop_case_result stop_case_files stop_case_calls].
        rewrite <- !app_assoc.
        destruct e; try reflexivity. congruence.
Qed.

Lemma signals_app a b : signals (a ++ b) = (signals a ++ signals b)%list.
Proof. apply omap_app. Qed.

Lemma slept_app a b : slept (a ++ b) = slept a + slept b.
Proof.
  unfold slept. rewrite omap_app.
  induction (omap _ a) as [|x l IH]; simpl; [reflexivity|]. rewrite IH. lia.
Qed.

Lemma signals_kill_calls pid n :
  signals (kill_calls pid n) = replicate n (pid, SIGKILL).
Proof. induction n as [|n IH]; simpl; [reflexivity|]. f_equal. exact IH. Qed.

Lemma slept_kill_calls pid n : slept (kill_calls pid n) = 2 * Z.of_nat n.
Proof.
  induction n as [|n IH]; [reflexivity|].
  change (kill_calls pid (S n)) with ([Kill pid SIGKILL; Sleep 2] ++ kill_calls pid n)%list.
  rewrite slept_app, IH. change (slept [Kill pid SIGKILL; Sleep 2]) with 2. lia.
Qed.

End Stopping.



Lemma stop_case_signals E t0 path pid c :
  stop_case_ok E t0 pid c ->
  exists k, (k <= 10)%nat /\
    signals (stop_case_calls path pid c) = (pid, 0) :: replicate k (pid, SIGKILL) /\
    0 <= slept (stop_case_calls path pid c) <= 2 * Z.of_nat k.
Proof.
  intros Hok. destruct c as [|e| |i|i e]; cbn [stop_case_calls].
  - exists O. split; [lia|]. split; [reflexivity|]. cbn. lia.
  - exists O. split; [lia|]. split; [reflexivity|]. cbn. lia.
  - exists 10%nat. split; [lia|].
    change (Kill pid 0 :: kill_calls pid 10 ++ gave_up_calls pid)%list
      with ([Kill pid 0] ++ kill_calls pid 10 ++ gave_up_calls pid)%list.
    rewrite !signals_app, !slept_app, signals_kill_calls, slept_kill_calls.
    split; [reflexivity|]. cbn. lia.
  - simpl in Hok. exists (S i). split; [lia|].
    change (Kill pid 0 :: kill_calls pid i ++ terminated_calls path pid)%list
      with ([Kill pid 0] ++ kill_calls pid i ++ terminated_calls path pid)%list.
    rewrite !signals_app, !slept_app, signals_kill_calls, slept_kill_calls.
    split; [rewrite replicate_S_end; reflexivity|].
    change (slept [Kill pid 0]) with 0. change (slept (terminated_calls path pid)) with 0.
    lia.
  - destruct Hok as [Hi _]. exists (S i). split; [lia|].
    change (Kill pid 0 :: kill_calls pid i ++ [Kill pid SIGKILL])%list
      with ([Kill pid 0] ++ kill_calls pid i ++ [Kill pid SIGKILL])%list.
    rewrite !signals_app, !slept_app, signals_kill_calls, slept_kill_calls.
    split; [rewrite replicate_S_end; reflexivity|].
    change (slept [Kill pid 0]) with 0. change (slept [Kill pid SIGKILL]) with 0.
    lia.
Qed.

Lemma stop_missing E path w :
  fs w !! path = None ->
  run E (stop path) w =
    (Returned 1,
     World (fs w) (trace w ++ [ReadText path; Logging ERROR not_found_msg])%list).
Proof.
  intros H. unfold stop. rewrite run_bind, (get_pid_missing E path w H). reflexivity.
Qed.

Lemma stop_invalid E path content w :
  fs w !! path = Some content ->
  PyText.py_int (PyText.strip content) = None ->
  run E (stop path) w =
    (Returned 1,
     World (fs w)
       (trace w ++ get_pid_calls path content ++ [Logging ERROR invalid_msg])%list).
Proof.
  intros H Hp. unfold stop. rewrite run_bind, (get_pid_invalid E path content w H Hp).
  reflexivity.
Qed.

Lemma stop_minus_one E path content w :
  fs w !! path = Some content ->
  PyText.py_int (PyText.strip content) = Some (-1) ->
  run E (stop path) w =
    (Returned 1, World (fs w) (trace w ++ get_pid_calls path content)%list).
Proof.
  intros H Hp. unfold stop. rewrite run_bind, (get_pid_valid E path content (-1) w H Hp).
  reflexivity.
Qed.

(** X2.  Whatever the surroundings answer, [stop] sleeps at most 20 seconds
    and sends at most 11 signals; each signal goes to the pid that the PID
    file holds and is the probe (signal 0) or SIGKILL. *)
Theorem stop_signal_discipline E path w :
  exists calls,
    trace (run E (stop path) w).2 = (trace w ++ calls)%list /\
    0 <= slept calls <= 20 /\
    (length (signals calls) <= 11)%nat /\
    forall pid sig, (pid, sig) ∈ signals calls ->
      (exists content, fs w !! path = Some content /\
                       PyText.py_int (PyText.strip content) = Some pid) /\
      (sig = 0 \/ sig = SIGKILL).
Proof.
  destruct (fs w !! path) as [content|] eqn:H.
  - destruct (PyText.py_int (PyText.strip content)) as [pid|] eqn:Hp.
    + destruct (decide (pid = -1)) as [->|Hn].
      * rewrite (stop_minus_one E path content w H Hp). eexists. split; [reflexivity|].
        cbn. split; [lia|]. split; [lia|]. intros ? ? Hin. inversion Hin.
      * destruct (stop_valid_cases E path content pid w H Hp Hn) as (c & Hok & ->).
        destruct (stop_case_signals _ _ path pid c Hok) as (k & Hk & Hsig & Hsl).
        eexists. split; [reflexivity|].
        rewrite signals_app, slept_app, Hsig.
        change (signals (get_pid_calls path content)) with (@nil (Z * Z)).
        change (slept (get_pid_calls path content)) with 0.
        cbn [app length]. rewrite length_replicate.
        split; [lia|]. split; [lia|].
        intros p sig [Heq|Hin%elem_of_replicate_inv]%elem_of_cons;
          simplify_eq; split; eauto.
    + rewrite (stop_invalid E path content w H Hp). eexists. split; [reflexivity|].
      cbn. split; [lia|]. split; [lia|]. intros ? ? Hin. inversion Hin.
  - rewrite (stop_missing E path w H). eexists. split; [reflexivity|].
    cbn. split; [lia|]. split; [lia|]. intros ? ? Hin. inversion Hin.
Qed.

(** X3.  In the termination loop of [stop], an exception other than
    ProcessLookupError raised by the SIGKILL of round [i] (for example a
    PermissionError) leaves [stop] at once: nothing is logged, the PID file
    is not removed, and no further signal is sent. *)
Theorem stop_loop_error_propagates E path content pid w i e :
  fs w !! path = Some content ->
  PyText.py_int (PyText.strip content) = Some pid ->
  pid <> -1 ->
  let t1 := (trace w ++ get_pid_calls path content ++ [Kill pid 0])%list in
  kill_reply E (trace w ++ get_pid_calls path content)%list pid 0 = None ->
  (i < 10)%nat ->
  (forall j, (j < i)%nat ->
     kill_reply E (t1 ++ kill_calls pid j)%list pid SIGKILL = None) ->
  kill_reply E (t1 ++ kill_calls pid i)%list pid SIGKILL = Some e ->
  e <> ProcessLookupError ->
  run E (stop path) w =
    (Raised e, World (fs w) (t1 ++ kill_calls pid i ++ [Kill pid SIGKILL])%list).
Proof.
  intros H Hp Hn t1 Hk Hi Hd He Hne.
  rewrite (stop_probe E path content pid w H Hp Hn). cbv zeta. rewrite Hk.
  fold t1.
  rewrite (kill_loop_refused E pid 10 i e (World (fs w) t1) Hi Hd He).
  destruct e; try reflexivity. congruence.
Qed.

Lemma stop_loop_error_propagates_witness :
  run (scripted [None; None; Some PermissionError]) (stop demo_path) (demo_world "77") =
    (Raised PermissionError,
     World {[ demo_path := "77" ]}
       (get_pid_calls demo_path "77" ++
        [Kill 77 0; Kill 77 SIGKILL; Sleep 2; Kill 77 SIGKILL])%list).
Proof.
  rewrite (stop_loop_error_propagates (scripted [None; None; Some PermissionError])
             demo_path "77" 77 (demo_world "77") 1 PermissionError).
  - vm_compute. reflexivity.
  - vm_compute. reflexivity.
  - vm_compute. reflexivity.
  - lia.
  - vm_compute. reflexivity.
  - lia.
  - intros [|j] Hj; [vm_compute; reflexivity|lia].
  - vm_compute. reflexivity.
  - discriminate.
Defined.

(** X4.  Once [stop] has returned 0 the PID file is gone, and a second
    [stop] returns 1 after logging that the process is not running; it
    changes nothing and sends no signal. *)
Theorem stop_after_successful_stop E path w w' :
  run E (stop path) w = (Returned 0, w') ->
  fs w' !! path = None /\
  run E (stop path) w' =
    (Returned 1,
     World (fs w') (trace w' ++ [ReadText path; Logging ERROR not_found_msg])%list).
Proof.
  intros Hr.
  assert (fs w' !! path = None) as Hgone.
  { destruct (fs w !! path) as [content|] eqn:H.
    - destruct (PyText.py_int (PyText.strip content)) as [pid|] eqn:Hp.
      + destruct (decide (pid = -1)) as [->|Hn].
        * rewrite (stop_minus_one E path content w H Hp) in Hr. discriminate.
        * destruct (stop_valid_cases E path content pid w H Hp Hn) as (c & Hok & Hc).
          rewrite Hc in Hr. destruct c; simpl in Hr; simplify_eq;
            cbn [fs]; apply lookup_delete_eq.
      + rewrite (stop_invalid E path content w H Hp) in Hr. discriminate.
    - rewrite (stop_missing E path w H) in Hr. discriminate. }
  split; [exact Hgone|]. apply stop_missing, Hgone.
Qed.

Lemma stop_after_successful_stop_witness :
  let w' := (run (scripted [Some ProcessLookupError]) (stop demo_path) (demo_world "4242")).2 in
  fs w' !! demo_path = None /\
  (run (scripted [Some ProcessLookupError]) (stop demo_path) w').1 = Returned 1.
Proof.
  pose proof (stop_after_successful_stop (scripted [Some ProcessLookupError]) demo_path
                (demo_world "4242")
                (run (scripted [Some ProcessLookupError]) (stop demo_path)
                   (demo_world "4242")).2
                ltac:(vm_compute; reflexivity)) as [H1 H2].
  split; [exact H1|]. cbv zeta. rewrite H2. reflexivity.
Defined.

(** ** Whitespace in the PID file *)

Section Whitespace.
Variable sp : ascii -> bool.

Lemma strip_by_app s ws :
  all_sp sp ws = true ->
  PyText.strip_by sp (s ++ ws) = PyText.strip_by sp s.
Proof.
  intros Hws. unfold PyText.strip_by. induction s as [|ch s IH].
  - change (EmptyString ++ ws) with ws. rewrite (lstrip_by_all_sp sp ws Hws). reflexivity.
  - change (String ch s ++ ws) with (String ch (s ++ ws)). simpl.
    destruct (sp ch); [exact IH|].
    change (String ch (s ++ ws)) with (String ch s ++ ws).
    apply rstrip_by_app, Hws.
Qed.

Lemma strip_by_padded_any ws1 s ws2 :
  all_sp sp ws1 = true -> all_sp sp ws2 = true ->
  PyText.strip_by sp (ws1 ++ s ++ ws2) = PyText.strip_by sp s.
Proof.
  intros H1 H2. rewrite <- (strip_by_app s ws2 H2).
  unfold PyText.strip_by. rewrite (lstrip_by_app sp ws1 _ H1). reflexivity.
Qed.
End Whitespace.

Lemma get_pid_answer E path content w :
  fs w !! path = Some content ->
  (run E (get_pid path) w).1 =
    Returned (default (-1) (PyText.py_int (PyText.strip content))).
Proof.
  intros H. destruct (PyText.py_int (PyText.strip content)) as [pid|] eqn:Hp.
  - rewrite (get_pid_valid E path content pid w H Hp). reflexivity.
  - rewrite (get_pid_invalid E path content w H Hp). reflexivity.
Qed.

(** X5.  Whitespace around the content of the PID file does not change
    what [get_pid] answers, whatever the content is. *)
Theorem get_pid_ignores_surrounding_whitespace E path content ws1 ws2 w1 w2 :
  blank ws1 = true -> blank ws2 = true ->
  fs w1 !! path = Some content ->
  fs w2 !! path = Some (ws1 ++ content ++ ws2) ->
  (run E (get_pid path) w2).1 = (run E (get_pid path) w1).1.
Proof.
  intros H1 H2 Hf1 Hf2.
  rewrite (get_pid_answer E path _ w1 Hf1), (get_pid_answer E path _ w2 Hf2).
  unfold PyText.strip. rewrite (strip_by_padded_any _ ws1 content ws2 H1 H2). reflexivity.
Qed.

Lemma get_pid_ignores_surrounding_whitespace_witness :
  (run (scripted []) (get_pid demo_path) (demo_world (" " ++ "+1_0" ++ newline))).1 =
  (run (scripted []) (get_pid demo_path) (demo_world "+1_0")).1.
Proof.
  apply (get_pid_ignores_surrounding_whitespace (scripted []) demo_path "+1_0" " " newline);
    vm_compute; reflexivity.
Defined.

Lemma start_alone E path w :
  fs w !! path = None ->
  run E (start path) w =
    match run E (fork path) (World (fs w) (trace w ++ start_calls path)%list) with
    | (Raised e, w1) => (Raised e, w1)
    | (Returned _, w1) =>
        let t2 := (trace w1 ++ payload_calls)%list in
        match app_effect E (fs w1) with
        | (Some e, m') => (Raised e, World m' t2)
        | (None, m') =>
            match m' !! path with
            | Some _ => (Returned 0, World (delete path m') (t2 ++ cleanup_calls path)%list)
            | None => (Raised FileNotFoundError, World m' (t2 ++ cleanup_calls path)%list)
            end
        end
    end.
Proof.
  intros H. unfold start.
  remember (fork path) as fk.
  cbn. rewrite H. cbn. rewrite <- !app_assoc. cbn [app]. fold (start_calls path).
  rewrite run_bind.
  destruct (run E fk _) as [[v|e] w1]; [|reflexivity].
  cbn. destruct (app_effect E (fs w1)) as [[e|] m']; cbn.
  - rewrite <- !app_assoc. reflexivity.
  - destruct (m' !! path); cbn; rewrite <- !app_assoc; reflexivity.
Qed.

(** ** [start] in one process *)

Lemma start_in_grandchild E path w :
  fs w !! path = None ->
  (forall t, fork_reply E t = 0) ->
  let t2 := (trace w ++ start_calls path ++ detach_calls ++ grandchild_calls
             ++ payload_calls)%list in
  run E (start path) w =
    match app_effect E (fs w) with
    | (Some e, m') => (Raised e, World m' t2)
    | (None, m') =>
        match m' !! path with
        | Some _ => (Returned 0, World (delete path m') (t2 ++ cleanup_calls path)%list)
        | None => (Raised FileNotFoundError, World m' (t2 ++ cleanup_calls path)%list)
        end
    end.
Proof.
  intros H Hf t2. rewrite (start_alone E path w H).
  rewrite (fork_alone E path). cbv zeta. cbn [fs trace]. rewrite !Hf. cbn [Z.gtb Z.compare].
  cbn [fs trace]. unfold t2.
  destruct (app_effect E (fs w)) as [[e|] m']; [rewrite <- !app_assoc; reflexivity|].
  destruct (m' !! path); rewrite <- !app_assoc; reflexivity.
Qed.

(** X6.  In the process that runs the payload (the child at both forks),
    when the payload raises, be it [SystemExit] from the SIGTERM handler or
    an error, [start] lets the exception through and does not call
    [os.remove]: the files stay as the payload left them, PID file
    included. *)
Theorem start_keeps_pid_file_when_payload_raises E path w e m' :
  fs w !! path = None ->
  (forall t, fork_reply E t = 0) ->
  app_effect E (fs w) = (Some e, m') ->
  run E (start path) w =
    (Raised e,
     World m' (trace w ++ start_calls path ++ detach_calls ++ grandchild_calls
               ++ payload_calls)%list).
Proof.
  intros H Hf Ha. rewrite (start_in_grandchild E path w H Hf). cbv zeta.
  rewrite Ha. reflexivity.
Qed.

Lemma start_keeps_pid_file_when_payload_raises_witness :
  run interrupted (start demo_path) (World ∅ []) =
    (Raised (SystemExit 0),
     World ∅ (start_calls demo_path ++ detach_calls ++ grandchild_calls
              ++ payload_calls)%list).
Proof.
  apply (start_keeps_pid_file_when_payload_raises interrupted demo_path (World ∅ [])
           (SystemExit 0) ∅); [vm_compute; reflexivity|reflexivity|reflexivity].
Defined.

(** X7.  In the process that runs the payload, when the payload returns,
    [start] returns 0 only if the PID file is there to be removed; if it is
    not, [os.remove] raises FileNotFoundError and [start] does not return. *)
Theorem start_returns_only_after_removing_pid_file E path w m' :
  fs w !! path = None ->
  (forall t, fork_reply E t = 0) ->
  app_effect E (fs w) = (None, m') ->
  let t3 := (trace w ++ start_calls path ++ detach_calls ++ grandchild_calls
             ++ payload_calls ++ cleanup_calls path)%list in
  (is_Some (m' !! path) ->
     run E (start path) w = (Returned 0, World (delete path m') t3)) /\
  (m' !! path = None ->
     run E (start path) w = (Raised FileNotFoundError, World m' t3)).
Proof.
  intros H Hf Ha t3. rewrite (start_in_grandchild E path w H Hf). cbv zeta.
  rewrite Ha. unfold t3. rewrite <- !app_assoc. split.
  - intros [x Hx]. rewrite Hx. reflexivity.
  - intros Hx. rewrite Hx. reflexivity.
Qed.

Lemma start_returns_only_after_removing_pid_file_witness :
  (run (writing demo_path "102") (start demo_path) (World ∅ [])).1 = Returned 0 /\
  fs (run (writing demo_path "102") (start demo_path) (World ∅ [])).2 !! demo_path = None /\
  (run (scripted []) (start demo_path) (World ∅ [])).1 = Raised FileNotFoundError.
Proof.
  destruct (start_returns_only_after_removing_pid_file (writing demo_path "102")
              demo_path (World ∅ []) {[ demo_path := "102" ]}) as [H1 _];
    [vm_compute; reflexivity|reflexivity|vm_compute; reflexivity|].
  destruct (start_returns_only_after_removing_pid_file (scripted [])
              demo_path (World ∅ []) ∅) as [_ H2];
    [vm_compute; reflexivity|reflexivity|vm_compute; reflexivity|].
  rewrite H1 by (vm_compute; eauto). rewrite H2 by (vm_compute; reflexivity).
  split; [reflexivity|]. split; [vm_compute; reflexivity|reflexivity].
Defined.

(** X8.  In the calling process (the first [os.fork()] answers a child
    pid), [start] without a PID file does not return: it ends by
    [sys.exit()] right after the fork, having changed no file and without
    invoking the payload. *)
Theorem start_exits_in_the_calling_process E path w :
  fs w !! path = None ->
  0 < fork_reply E (trace w ++ start_calls path)%list ->
  run E (start path) w =
    (Raised (SystemExit 0), World (fs w) (trace w ++ start_calls path ++ [Fork])%list).
Proof.
  intros H Hf. rewrite (start_alone E path w H).
  rewrite (fork_alone E path). cbv zeta. cbn [fs trace].
  apply Z.gtb_lt in Hf. rewrite Hf. rewrite <- !app_assoc. reflexivity.
Qed.

Lemma start_exits_in_the_calling_process_witness :
  run (parent_of 101) (start demo_path) (World ∅ []) =
    (Raised (SystemExit 0), World ∅ (start_calls demo_path ++ [Fork])%list).
Proof.
  apply (start_exits_in_the_calling_process (parent_of 101) demo_path (World ∅ []));
    [vm_compute; reflexivity|cbn; lia].
Defined.

(** ** The payload runs at most once *)

Section Once.
Import Pool Detach.
Context {A : Type}.
Variables (E : env) (m : gmap string string) (path : string) (p0 c g : Z) (rest : list Z).
Variable final : stage -> prog A -> Prop.
Hypothesis p0_c : p0 <> c.
Hypothesis p0_g : p0 <> g.
Hypothesis c_g : c <> g.

Local Abbreviation once := (once p0 c g rest).

Lemma payload_runs_snoc h p cm :
  payload_runs (h ++ [(p, cm)]) =
  (payload_runs h + if is_app cm then 1 else 0)%nat.
Proof.
  unfold payload_runs. rewrite omap_app, length_app. simpl.
  destruct (is_app cm); reflexivity.
Qed.

Lemma once_step p s :
  inv m path p0 c g final rest s -> once s -> once (step E p s).
Proof.
  intros (n & wrote & Hn & Hfree & _ & Hprocs & _ & _) [Hcount Hleft].
  destruct (procs s !! p) as [[a|e|cm k]|] eqn:Hp;
    try (rewrite step_idle by (rewrite Hp; exact I); split; assumption).
  destruct (Hprocs p _ Hp) as (st & Hst & Hfol).
  pose proof (stage_of_inv p0 c g p0_c p0_g c_g n wrote p st Hn Hst) as Hi.
  assert (cm = Fork \/ cm <> Fork) as [->|Hcm]
    by (destruct cm; (left; reflexivity) || (right; discriminate)).
  - destruct Hfol as [_ Hk].
    destruct st; try contradiction; destruct Hi as [-> ->]; simpl in Hfree.
    + rewrite (step_fork E _ _ _ _ _ Hp Hfree). split; simpl.
      * rewrite payload_runs_snoc. simpl. lia.
      * rewrite payload_runs_snoc. simpl. rewrite Nat.add_0_r.
        assert (forall r, apps_le (1 - payload_runs (history s)) (k r)) as Hall.
        { apply (Hleft p0 (Do Fork k) Hp). left. rewrite Hfree. auto. }
        intros q Q HQ Hrole.
        destruct (decide (q = c)) as [->|Hqc].
        { rewrite lookup_insert_eq in HQ. simplify_eq. apply Hall. }
        rewrite lookup_insert_ne in HQ by congruence.
        destruct (decide (q = p0)) as [->|Hq0].
        { rewrite lookup_insert_eq in HQ. simplify_eq. apply Hall. }
        rewrite lookup_insert_ne in HQ by congruence.
        destruct (Hprocs q Q HQ) as (st' & Hst' & _).
        unfold Detach.stage_of in Hst'. repeat case_decide; simplify_eq.
    + rewrite (step_fork E _ _ _ _ _ Hp Hfree). split; simpl.
      * rewrite payload_runs_snoc. simpl. lia.
      * rewrite payload_runs_snoc. simpl. rewrite Nat.add_0_r.
        assert (forall r, apps_le (1 - payload_runs (history s)) (k r)) as Hall.
        { apply (Hleft c (Do Fork k) Hp). right. left. rewrite Hfree. auto. }
        intros q Q HQ Hrole.
        destruct (decide (q = g)) as [->|Hqg].
        { rewrite lookup_insert_eq in HQ. simplify_eq. apply Hall. }
        rewrite lookup_insert_ne in HQ by congruence.
        destruct (decide (q = c)) as [->|Hqc].
        { rewrite lookup_insert_eq in HQ. simplify_eq. apply Hall. }
        rewrite lookup_insert_ne in HQ by congruence.
        destruct Hrole as [[-> Hlen]|[[-> _]| -> ]]; try congruence.
        lia.
  - destruct (follows_call m path c g final _ _ _ Hfol Hcm) as [Ha _].
    rewrite (step_call E _ _ _ _ Hp Hcm). unfold once.
    cbn [history procs free_pids files]. rewrite payload_runs_snoc.
    assert (Hrole_p : is_app cm = true ->
              (p = p0 /\ length (free_pids s) = S (S (length rest))) \/
              (p = c /\ length (free_pids s) = S (length rest)) \/ p = g).
    { intros Happ. destruct cm; try discriminate. simpl in Ha. subst st.
      destruct Hi as [-> _]. auto. }
    split.
    + destruct (is_app cm) eqn:Happ; [|lia].
      pose proof (Hleft p _ Hp (Hrole_p eq_refl)) as Hle.
      destruct cm; try discriminate. simpl in Hle.
      destruct (1 - payload_runs (history s))%nat eqn:Hc1; [contradiction|]. lia.
    + intros q Q HQ Hrole.
      destruct (decide (q = p)) as [->|Hq].
      * rewrite lookup_insert_eq in HQ. simplify_eq.
        pose proof (Hleft p _ Hp Hrole) as Hle.
        destruct cm; try congruence; simpl in Hle |- *;
          rewrite ?Nat.add_0_r; try apply Hle.
        destruct (1 - payload_runs (history s))%nat eqn:Hc1; [contradiction|].
        replace (1 - (payload_runs (history s) + 1))%nat with n0 by lia. apply Hle.
      * rewrite lookup_insert_ne in HQ by congruence.
        pose proof (Hleft q Q HQ Hrole) as Hle.
        destruct (is_app cm) eqn:Happ; [|rewrite Nat.add_0_r; exact Hle].
        (* the payload is the grandchild's: the others are past their forks *)
        destruct cm; try discriminate. simpl in Ha. subst st.
        destruct Hi as [-> ->]. simpl in Hfree.
        destruct Hrole as [[-> Hlen]|[[-> Hlen]| -> ]]; try congruence;
          rewrite Hfree in Hlen; rewrite ?drop_0 in Hlen; lia.
Qed.

Lemma once_exec sched s :
  inv m path p0 c g final rest s -> once s -> once (exec E sched s).
Proof.
  revert s; induction sched as [|p sched IH]; intros s Hi Ho; simpl; [exact Ho|].
  apply IH; [apply inv_step; assumption|apply once_step; assumption].
Qed.

End Once.

Section OnceClaims.
Import Pool Detach.

Ltac budget :=
  repeat first
    [ progress cbn
    | match goal with
      | |- forall _, _ => intro
      | |- True => exact I
      | |- context [match ?x with _ => _ end] => is_var x; destruct x
      | |- context [if ?b then _ else _] => destruct b
      end ].

Lemma start_apps_le path : apps_le 1 (start path).
Proof. unfold start, fork, create_pid_file. budget. Qed.

Lemma once_boot (p0 c g : Z) (rest : list Z) (main : prog Z) mm :
  apps_le 1 main -> once p0 c g rest (boot p0 main mm (c :: g :: rest)).
Proof.
  intros Hmain. split; [unfold boot, payload_runs; simpl; lia|].
  intros p P HP _. unfold boot in HP. cbn [procs] in HP.
  apply lookup_singleton_Some in HP as [-> <-]. exact Hmain.
Qed.

(** X9.  However the processes of [start] take turns, the payload is
    invoked at most once. *)
Theorem start_invokes_payload_at_most_once E m path p0 c g rest sched :
  0 < c -> 0 < g -> p0 <> c -> p0 <> g -> c <> g ->
  (payload_runs (history (exec E sched (boot p0 (start path) m (c :: g :: rest)))) <= 1)%nat.
Proof.
  intros Hc Hg H1 H2 H3.
  apply (once_exec E m path p0 c g rest (final_start m path) H1 H2 H3 sched).
  - apply inv_boot; auto. apply start_follows; auto.
  - apply once_boot, start_apps_le.
Qed.

Lemma start_invokes_payload_at_most_once_witness :
  let s := exec (scripted []) in_turn (boot 100 (start demo_path) ∅ [101; 102]) in
  payload_runs (history s) = 1%nat /\ (payload_runs (history s) <= 1)%nat.
Proof.
  split; [vm_compute; reflexivity|].
  apply (start_invokes_payload_at_most_once (scripted []) ∅ demo_path 100 101 102 []
           in_turn); lia.
Defined.

(** X10.  However the processes of [start] take turns, there are never
    other processes than the original one, the first child and the
    grandchild, and at most two pids are taken from the kernel. *)
Theorem start_forks_at_most_twice E m path p0 c g rest sched :
  0 < c -> 0 < g -> p0 <> c -> p0 <> g -> c <> g ->
  let s := exec E sched (boot p0 (start path) m (c :: g :: rest)) in
  (forall p, is_Some (procs s !! p) -> p = p0 \/ p = c \/ p = g) /\
  (free_pids s = c :: g :: rest \/ free_pids s = g :: rest \/ free_pids s = rest).
Proof.
  intros Hc Hg H1 H2 H3 s.
  assert (inv m path p0 c g (final_start m path) rest s)
    as (n & wrote & Hn & Hfree & _ & Hprocs & _ & _)
    by (apply inv_exec; auto; apply inv_boot; auto; apply start_follows; auto).
  split.
  - intros p [P HP]. destruct (Hprocs p P HP) as (st & Hst & _).
    pose proof (stage_of_inv p0 c g H1 H2 H3 n wrote p st Hn Hst) as Hi.
    destruct st; destruct_and?; auto.
  - rewrite Hfree. destruct n as [|[|[|n]]]; simpl; auto. lia.
Qed.

Lemma start_forks_at_most_twice_witness :
  let s := exec (scripted []) in_turn (boot 100 (start demo_path) ∅ [101; 102; 103]) in
  free_pids s = [103] /\
  (forall p, is_Some (procs s !! p) -> p = 100 \/ p = 101 \/ p = 102).
Proof.
  split; [vm_compute; reflexivity|].
  apply (start_forks_at_most_twice (scripted []) ∅ demo_path 100 101 102 [103]
           in_turn); lia.
Defined.

End OnceClaims.

(** ** Two orders of the same three processes *)

Section Schedules.
Import Pool Detach.
Variables (E : env) (m : gmap string string) (path : string) (p0 c g : Z) (rest : list Z).
Hypothesis c_pos : 0 < c.
Hypothesis g_pos : 0 < g.
Hypothesis p0_c : p0 <> c.
Hypothesis p0_g : p0 <> g.
Hypothesis c_g : c <> g.
Hypothesis no_pid_file : m !! path = None.

Lemma exec_cons (p : Z) (l : list Z) (s : system Z) :
  exec E (p :: l) s = exec E l (step E p s).
Proof. reflexivity. Qed.

Ltac look :=
  cbn [procs];
  repeat first [ rewrite lookup_insert_eq
               | rewrite lookup_insert_ne by congruence
               | rewrite lookup_singleton_eq ];
  reflexivity.

Ltac advance :=
  rewrite exec_cons;
  first [ erewrite (step_fork E) by first [look | reflexivity]
        | erewrite (step_call E) by first [look | discriminate] ];
  cbn -[insert lookup delete singletonM Z.gtb exec];
  change (0 >? 0)%Z with false;
  rewrite ?(proj2 (Z.gtb_lt c 0) c_pos), ?(proj2 (Z.gtb_lt g 0) g_pos),
          ?no_pid_file, ?insert_insert_eq;
  cbn -[insert lookup delete singletonM Z.gtb exec].

Ltac settle := cbn -[insert lookup delete singletonM Z.gtb exec].

Ltac found :=
  cbn [exec procs files];
  repeat first [ rewrite lookup_insert_eq
               | rewrite lookup_insert_ne by congruence
               | rewrite lookup_singleton_eq ];
  try reflexivity.

(** X11.  When the payload returns at once and leaves the files alone, and
    the grandchild runs to its end before the first child writes, the
    grandchild dies of FileNotFoundError in [os.remove] and the first child
    then leaves behind a PID file that names it. *)
Theorem daemon_can_outrun_its_pid_file :
  app_effect E m = (None, m) ->
  let s := exec E (daemon_first p0 c g) (boot p0 (start path) m (c :: g :: rest)) in
  procs s !! p0 = Some (Raise (SystemExit 0)) /\
  procs s !! c = Some (Raise (SystemExit 0)) /\
  procs s !! g = Some (Raise FileNotFoundError) /\
  files s = <[path := PyText.py_str g]> m.
Proof.
  intros Happ s. subst s. unfold daemon_first, boot.
  cbn [replicate app].
  do 13 advance. advance. rewrite Happ. settle.
  do 2 advance. do 3 advance.
  split_and!; found.
Qed.

(** X12.  When the first child runs to its end before the grandchild
    starts, the payload finds the PID file with the grandchild's pid; if
    the payload leaves a file at that path, [start] removes it and returns
    0 in the grandchild, and the two other processes have left by
    [sys.exit()]. *)
Theorem daemon_after_its_pid_file m' :
  app_effect E (<[path := PyText.py_str g]> m) = (None, m') ->
  is_Some (m' !! path) ->
  let s := exec E (child_first p0 c g) (boot p0 (start path) m (c :: g :: rest)) in
  procs s !! p0 = Some (Raise (SystemExit 0)) /\
  procs s !! c = Some (Raise (SystemExit 0)) /\
  procs s !! g = Some (Ret 0) /\
  files s = delete path m'.
Proof.
  intros Happ [x Hx] s. subst s. unfold child_first, boot.
  cbn [replicate app].
  do 9 advance. do 3 advance.
  do 4 advance. advance. rewrite Happ. settle.
  advance. advance. rewrite Hx. settle.
  split_and!; found.
Qed.
End Schedules.

Section ScheduleWitnesses.

Import Pool.

Lemma daemon_can_outrun_its_pid_file_witness :
  let s := exec (scripted []) (daemon_first 100 101 102)
             (boot 100 (start demo_path) ∅ [101; 102]) in
  procs s !! 100 = Some (Raise (SystemExit 0)) /\
  procs s !! 101 = Some (Raise (SystemExit 0)) /\
  procs s !! 102 = Some (Raise FileNotFoundError) /\
  files s = <[demo_path := PyText.py_str 102]> ∅.
Proof.
  apply (daemon_can_outrun_its_pid_file (scripted []) ∅ demo_path 100 101 102 []);
    first [lia | reflexivity].
Defined.

Lemma daemon_after_its_pid_file_witness :
  let s := exec (scripted []) (child_first 100 101 102)
             (boot 100 (start demo_path) ∅ [101; 102]) in
  procs s !! 100 = Some (Raise (SystemExit 0)) /\
  procs s !! 101 = Some (Raise (SystemExit 0)) /\
  procs s !! 102 = Some (Ret 0) /\
  files s = delete demo_path (<[demo_path := PyText.py_str 102]> ∅).
Proof.
  apply (daemon_after_its_pid_file (scripted []) ∅ demo_path 100 101 102 []);
    first [lia | reflexivity | (vm_compute; eauto)].
Defined.

End ScheduleWitnesses.

(** ** [main] and the script *)

Lemma main_unknown E as_script locals_repr current_dir old pid_file action lvl w :
  action <> "start" -> action <> "stop" ->
  main E as_script locals_repr current_dir old pid_file action lvl w =
    (UnboundLocalError,
     World (fs w) (trace w ++ main_debug locals_repr)%list,
     (main_setup current_dir old lvl ++ [Print "Action can only be start or stop"])%list).
Proof.
  intros H1 H2. unfold main.
  apply String.eqb_neq in H1, H2. rewrite H1, H2. reflexivity.
Qed.

Lemma hook_run E text w :
  run E (log_except_hook (A := unit) text) w =
    (Raised (SystemExit 1),
     World (fs w)
       (trace w ++ [Logging CRITICAL (crash_msg text)])%list).
Proof. reflexivity. Qed.

(** X13.  With an action other than "start" and "stop", [main] prints a
    message and ends with UnboundLocalError, imported or not, after its
    logging setup; it reads no file and sends no signal.  The script then
    logs the traceback at CRITICAL and exits with status 1. *)
Theorem unknown_action_is_unbound_local_error
  E as_script traceback locals_repr current_dir old pid_file action level_name lvl w :
  action <> "start" -> action <> "stop" ->
  logLevels !! level_name = Some lvl ->
  main E as_script locals_repr current_dir old pid_file action lvl w =
    (UnboundLocalError,
     World (fs w) (trace w ++ main_debug locals_repr)%list,
     (main_setup current_dir old lvl ++ [Print "Action can only be start or stop"])%list)
  /\
  script E traceback locals_repr current_dir old pid_file action level_name w =
    (1,
     World (fs w)
       (trace w ++ main_debug locals_repr ++ [Logging CRITICAL (crash_msg traceback)])%list,
     (SetExcepthook :: main_setup current_dir old lvl ++
      [Print "Action can only be start or stop"])%list).
Proof.
  intros H1 H2 Hl. split; [apply main_unknown; assumption|].
  unfold script. rewrite Hl, (main_unknown E true) by assumption.
  rewrite hook_run. cbn [fs trace snd]. rewrite <- app_assoc. reflexivity.
Qed.

Lemma unknown_action_is_unbound_local_error_witness :
  (script (scripted []) "Traceback" "{}" "/opt" [] demo_path "restart" "info"
     (demo_world "4242")).1.1 = 1 /\
  (main (scripted []) false "{}" "/opt" [] demo_path "restart" 20
     (demo_world "4242")).1.1 = UnboundLocalError.
Proof.
  destruct (unknown_action_is_unbound_local_error (scripted []) false "Traceback" "{}"
              "/opt" [] demo_path "restart" "info" 20 (demo_world "4242"))
    as [Hm _]; [discriminate|discriminate|vm_compute; reflexivity|].
  destruct (unknown_action_is_unbound_local_error (scripted []) true "Traceback" "{}"
              "/opt" [] demo_path "restart" "info" 20 (demo_world "4242"))
    as [_ Hs]; [discriminate|discriminate|vm_compute; reflexivity|].
  rewrite Hm, Hs. split; reflexivity.
Defined.

(** X14.  Run as a script, [main] never returns a code: it ends by
    [sys.exit(code)], by the exception that [start] or [stop] raised, or by
    UnboundLocalError. *)
Theorem main_as_script_never_returns
  E locals_repr current_dir old pid_file action lvl w code :
  (main E true locals_repr current_dir old pid_file action lvl w).1.1
    <> Ended (Returned code).
Proof.
  unfold main.
  destruct (String.eqb action "start").
  - destruct (run E (start pid_file) _) as [[v|e] w1]; discriminate.
  - destruct (String.eqb action "stop").
    + destruct (run E (stop pid_file) _) as [[v|e] w1]; discriminate.
    + discriminate.
Qed.


Lemma main_start E as_script locals_repr current_dir old pid_file lvl w :
  main E as_script locals_repr current_dir old pid_file "start" lvl w =
    let r := run E (start pid_file) (World (fs w) (trace w ++ main_debug locals_repr)%list) in
    (match r.1 with
     | Returned code =>
         if as_script then Ended (Raised (SystemExit code)) else Ended (Returned code)
     | Raised e => Ended (Raised e)
     end, r.2, main_setup current_dir old lvl).
Proof.
  unfold main. cbn [String.eqb Ascii.eqb Bool.eqb]. cbn [run handle logging call bind snd fs trace].
  destruct (run E (start pid_file) _) as [r w1]. reflexivity.
Qed.



(** X16.  In the process the shell waits for, the script with action
    "start" exits with status 0 and leaves the files as they are, both when
    a PID file is already there and when it has just forked the daemon. *)
Theorem start_command_exit_status
  E traceback locals_repr current_dir old path level_name lvl w :
  logLevels !! level_name = Some lvl ->
  (is_Some (fs w !! path) \/
   0 < fork_reply E (trace w ++ main_debug locals_repr ++ start_calls path)%list) ->
  let r := script E traceback locals_repr current_dir old path "start" level_name w in
  r.1.1 = 0 /\ fs r.1.2 = fs w.
Proof.
  intros Hl Hcase r. subst r. unfold script. rewrite Hl, main_start. cbv zeta.
  set (w0 := World (fs w) (trace w ++ main_debug locals_repr)%list).
  destruct (fs w !! path) as [content|] eqn:H.
  - rewrite (start_already_running E path content w0 H). split; reflexivity.
  - destruct Hcase as [[x Hx]|Hf]; [discriminate|].
    rewrite (start_alone E path w0 H), (fork_alone E path). cbv zeta. cbn [fs trace w0].
    rewrite <- app_assoc. apply Z.gtb_lt in Hf. rewrite Hf. split; reflexivity.
Qed.

Lemma start_command_exit_status_witness :
  (script (scripted []) "Traceback" "{}" "/opt" [] demo_path "start" "debug"
     (demo_world "4242")).1.1 = 0 /\
  (script (parent_of 101) "Traceback" "{}" "/opt" [] demo_path "start" "debug"
     (World ∅ [])).1.1 = 0.
Proof.
  split.
  - apply (start_command_exit_status (scripted []) "Traceback" "{}" "/opt" [] demo_path
             "debug" 10 (demo_world "4242")); [vm_compute; reflexivity|].
    left. vm_compute. eauto.
  - apply (start_command_exit_status (parent_of 101)
             "Traceback" "{}" "/opt" [] demo_path "debug" 10 (World ∅ []));
      [vm_compute; reflexivity|]. right. cbn. lia.
Defined.

(** X17.  In the daemon, when the payload raises, the script ends without
    removing the PID file: the files are as the payload left them.  The
    status is the one of the [SystemExit] (0 under the SIGTERM handler);
    for any other exception it is 1, after one CRITICAL record. *)
Theorem daemon_exit_when_payload_raises
  E traceback locals_repr current_dir old path level_name lvl w e m' :
  logLevels !! level_name = Some lvl ->
  fs w !! path = None ->
  (forall t, fork_reply E t = 0) ->
  app_effect E (fs w) = (Some e, m') ->
  script E traceback locals_repr current_dir old path "start" level_name w =
    (match e with SystemExit status => status | _ => 1 end,
     World m'
       (trace w ++ main_debug locals_repr ++ start_calls path ++ detach_calls
        ++ grandchild_calls ++ payload_calls
        ++ match e with
           | SystemExit _ => []
           | _ => [Logging CRITICAL (crash_msg traceback)]
           end)%list,
     SetExcepthook :: main_setup current_dir old lvl).
Proof.
  intros Hl H Hf Ha. unfold script. rewrite Hl, main_start. cbv zeta.
  set (w0 := World (fs w) (trace w ++ main_debug locals_repr)%list).
  rewrite (start_in_grandchild E path w0 H Hf). cbv zeta. cbn [fs w0]. rewrite Ha.
  cbn [fst snd].
  destruct e; cbn [fst snd fs trace w0]; rewrite ?hook_run; cbn [fst snd fs trace];
    rewrite <- ?app_assoc, ?app_nil_r; reflexivity.
Qed.

Lemma daemon_exit_when_payload_raises_witness :
  (script interrupted "Traceback" "{}" "/opt" [] demo_path "start" "info"
     (World ∅ [])).1.1 = 0 /\
  (script (failing ValueError) "Traceback" "{}" "/opt" [] demo_path "start" "info"
     (World ∅ [])).1.1 = 1.
Proof.
  split.
  - rewrite (daemon_exit_when_payload_raises interrupted "Traceback" "{}" "/opt" []
               demo_path "info" 20 (World ∅ []) (SystemExit 0) ∅);
      [reflexivity|vm_compute; reflexivity|vm_compute; reflexivity|reflexivity|reflexivity].
  - rewrite (daemon_exit_when_payload_raises (failing ValueError)
               "Traceback" "{}" "/opt" [] demo_path "info" 20 (World ∅ []) ValueError ∅);
      [reflexivity|vm_compute; reflexivity|vm_compute; reflexivity|reflexivity|reflexivity].
Defined.

Lemma filter_all {X : Type} (f : X -> bool) (l : list X) :
  (forall x, f x = true) -> List.filter f l = l.
Proof.
  intros Hf. induction l as [|x l IH]; simpl; [reflexivity|]. rewrite Hf, IH. reflexivity.
Qed.

(** X18.  [logLevels] has an entry for exactly the level names the parser
    accepts, so the lookup cannot fail; the entry of "off" is 0, a
    threshold that every record passes. *)
Theorem log_level_table name :
  (name ∈ choices <-> is_Some (logLevels !! name)) /\
  (logLevels !! "off" = Some 0 /\ forall t, shown 0 t = records t).
Proof.
  split; [split|split].
  - intros Hin. unfold choices in Hin.
    repeat (apply elem_of_cons in Hin as [->|Hin]); try (vm_compute; eauto; fail).
    inversion Hin.
  - intros [lvl Hl]. unfold logLevels in Hl. unfold choices.
    repeat (apply lookup_insert_Some in Hl as [[<- _]|[_ Hl]];
            [unfold choices; set_solver|]).
    apply lookup_singleton_Some in Hl as [<- _]. set_solver.
  - vm_compute. reflexivity.
  - intros t. unfold shown. apply filter_all. intros [[] msg]; reflexivity.
Qed.
